(* ========================================================================= *)
(*  ghReleaseDownloader.py: a shallow embedding and its properties           *)
(*                                                                           *)
(*  The Python class [ghReleaseDownloader] lists the releases of a GitHub    *)
(*  repository into an in-memory table and downloads one of them.  The       *)
(*  embedding keeps the shape of the source: one record for the instance     *)
(*  attributes, a store for the header dictionary the instance shares with   *)
(*  its methods, a trace of the effects on the outside world (HTTP requests, *)
(*  prints, reads of the response stream, extraction), and an error monad in *)
(*  which an exception leaves the mutations made before it in place.  The    *)
(*  network and the table library are parameters of the class.               *)
(* ========================================================================= *)

From Stdlib Require Import ZArith Lia Ascii String.
From stdpp Require Import base option list gmap strings pretty.

Set Warnings "-register-all".

Local Open Scope string_scope.
Local Open Scope list_scope.
Local Open Scope Z_scope.

(* ------------------------------------------------------------------------- *)
(** * Python values                                                          *)
(* ------------------------------------------------------------------------- *)

(** The values [resp.json()] produces.  [JNull] is Python's [None]; a JSON
    object is the parsed [dict] in insertion order (its keys are distinct, a
    lookup takes the binding met first).  Numbers are the integers. *)
Inductive json : Type :=
| JNull
| JBool (b : bool)
| JNum (z : Z)
| JStr (s : string)
| JArr (l : list json)
| JObj (kv : list (string * json)).

(** [d.get(k, None)]: a missing key and a key bound to [null] both give
    [None]. *)
Fixpoint assoc (k : string) (kv : list (string * json)) : option json :=
  match kv with
  | [] => None
  | (k', v) :: kv' => if String.eqb k k' then Some v else assoc k kv'
  end.

Definition dict_get (k : string) (kv : list (string * json)) : json :=
  default JNull (assoc k kv).

(** Python truthiness, as used by [if not date], [if per_page], [if page]. *)
Definition truthy (v : json) : bool :=
  match v with
  | JNull => false
  | JBool b => b
  | JNum z => negb (z =? 0)
  | JStr s => negb (String.eqb s "")
  | JArr l => match l with [] => false | _ => true end
  | JObj kv => match kv with [] => false | _ => true end
  end.

(** Python's [==] on these values. *)
Fixpoint py_eqb (a b : json) : bool :=
  match a, b with
  | JNull, JNull => true
  | JBool x, JBool y => Bool.eqb x y
  | JNum x, JNum y => x =? y
  | JStr x, JStr y => String.eqb x y
  | JArr x, JArr y =>
      (fix go (x y : list json) : bool :=
         match x, y with
         | [], [] => true
         | a :: x', b :: y' => py_eqb a b && go x' y'
         | _, _ => false
         end) x y
  | JObj x, JObj y =>
      (fix go (x y : list (string * json)) : bool :=
         match x, y with
         | [], [] => true
         | (k, a) :: x', (k', b) :: y' => String.eqb k k' && py_eqb a b && go x' y'
         | _, _ => false
         end) x y
  | _, _ => false
  end.

(* ------------------------------------------------------------------------- *)
(** * Exceptions                                                             *)
(* ------------------------------------------------------------------------- *)

(** The exceptions the two methods can leave with.  [RequestException] stands
    for the exceptions of the transport library other than [HTTPError]
    (connection failure, timeout, missing URL schema); [ReadError] is
    [tarfile.ReadError]. *)
Inductive exn : Type :=
| HTTPError (status : Z)
| SystemError (cause : exn)
| RequestException
| JSONDecodeError
| TypeError
| AttributeError
| KeyError
| IndexError
| ValueError
| ReadError.

Definition result (A : Type) : Type := exn + A.

(* ------------------------------------------------------------------------- *)
(** * datetime.strptime(s, '%Y-%m-%dT%H:%M:%SZ').date()                      *)
(* ------------------------------------------------------------------------- *)

Record date : Type := Date { year : Z; month : Z; day : Z }.

Module Strptime.

(** A pattern yields every way to match a prefix of the input, in the order
    a backtracking matcher tries them. *)
Definition re (A : Type) : Type := string -> list (A * string).

(** A decimal digit.  The strings of this development are strings of ASCII
    characters; the digits of other scripts, which the pattern of Python
    accepts as well, are outside of them. *)
Definition digit_of (c : ascii) : option Z :=
  let n := Z.of_N (Ascii.N_of_ascii c) in
  if (48 <=? n) && (n <=? 57) then Some (n - 48) else None.

(** [[lo-hi]] on decimal digits. *)
Definition cls (lo hi : Z) : re Z := fun s =>
  match s with
  | String c s' =>
      match digit_of c with
      | Some n => if (lo <=? n) && (n <=? hi) then [(n, s')] else []
      | None => []
      end
  | EmptyString => []
  end.

(** A literal character; the pattern is compiled with IGNORECASE. *)
Definition lower (c : ascii) : ascii :=
  let n := Ascii.N_of_ascii c in
  if ((65 <=? n) && (n <=? 90))%N then Ascii.ascii_of_N (n + 32) else c.

Definition lit (c : ascii) : re unit := fun s =>
  match s with
  | String c' s' => if Ascii.eqb (lower c') (lower c) then [(tt, s')] else []
  | EmptyString => []
  end.

Definition alt {A} (p q : re A) : re A := fun s => p s ++ q s.

Definition bind {A B} (p : re A) (k : A -> re B) : re B := fun s =>
  flat_map (fun '(a, s') => k a s') (p s).

Definition ret {A} (a : A) : re A := fun s => [(a, s)].

Definition two (p q : re Z) : re Z :=
  bind p (fun a => bind q (fun b => ret (10 * a + b))).

Definition skip {A} (p : re unit) (q : re A) : re A := bind p (fun _ => q).

(** The directives, as the standard library's [_strptime] spells them. *)
(* %Y  \d\d\d\d *)
Definition re_Y : re Z :=
  bind (two (cls 0 9) (cls 0 9)) (fun hi =>
  bind (two (cls 0 9) (cls 0 9)) (fun lo => ret (100 * hi + lo))).
(* %m  1[0-2]|0[1-9]|[1-9] *)
Definition re_m : re Z :=
  alt (two (cls 1 1) (cls 0 2)) (alt (two (cls 0 0) (cls 1 9)) (cls 1 9)).
(* %d  3[0-1]|[1-2]\d|0[1-9]|[1-9]| [1-9] *)
Definition re_d : re Z :=
  alt (two (cls 3 3) (cls 0 1))
 (alt (two (cls 1 2) (cls 0 9))
 (alt (two (cls 0 0) (cls 1 9))
 (alt (cls 1 9)
      (skip (lit " ") (cls 1 9))))).
(* %H  2[0-3]|[0-1]\d|\d *)
Definition re_H : re Z :=
  alt (two (cls 2 2) (cls 0 3)) (alt (two (cls 0 1) (cls 0 9)) (cls 0 9)).
(* %M  [0-5]\d|\d *)
Definition re_M : re Z :=
  alt (two (cls 0 5) (cls 0 9)) (cls 0 9).
(* %S  6[0-1]|[0-5]\d|\d *)
Definition re_S : re Z :=
  alt (two (cls 6 6) (cls 0 1)) (alt (two (cls 0 5) (cls 0 9)) (cls 0 9)).

(** '%Y-%m-%dT%H:%M:%SZ' *)
Definition format_regex : re (Z * Z * Z * Z * Z * Z) :=
  bind re_Y (fun yy => skip (lit "-")
 (bind re_m (fun mo => skip (lit "-")
 (bind re_d (fun dd => skip (lit "T")
 (bind re_H (fun hh => skip (lit ":")
 (bind re_M (fun mi => skip (lit ":")
 (bind re_S (fun ss => skip (lit "Z")
 (ret (yy, mo, dd, hh, mi, ss))))))))))))).

Definition is_leap (y : Z) : bool :=
  (y mod 4 =? 0) && (negb (y mod 100 =? 0) || (y mod 400 =? 0)).

Definition days_in_month (y m : Z) : Z :=
  if m =? 2 then (if is_leap y then 29 else 28)
  else if (m =? 4) || (m =? 6) || (m =? 9) || (m =? 11) then 30
  else 31.

(** The range checks of the [datetime] constructor. *)
Definition datetime_ok (yy mo dd hh mi ss : Z) : bool :=
  (1 <=? yy) && (yy <=? 9999) && (1 <=? mo) && (mo <=? 12) &&
  (1 <=? dd) && (dd <=? days_in_month yy mo) &&
  (0 <=? hh) && (hh <=? 23) && (0 <=? mi) && (mi <=? 59) &&
  (0 <=? ss) && (ss <=? 59).

(** [match] takes the first way the pattern matches; input left over after
    it, no match, and a field out of range all raise [ValueError]. *)
Definition strptime_date (s : string) : result date :=
  match format_regex s with
  | ((yy, mo, dd, hh, mi, ss), rest) :: _ =>
      if negb (String.eqb rest "") then inl ValueError
      else if datetime_ok yy mo dd hh mi ss then inr (Date yy mo dd)
      else inl ValueError
  | [] => inl ValueError
  end.

End Strptime.

(* ------------------------------------------------------------------------- *)
(** * The outside world: HTTP, the response stream, standard output          *)
(* ------------------------------------------------------------------------- *)

(** What [requests.get] is called with.  Both calls of the source pass a URL
    and [headers]; neither passes [params], so a request's query parameters
    are the empty dictionary. *)
Record Request : Type := mkRequest {
  req_url : string;
  req_headers : gmap string string;
  req_params : gmap string string;
  req_stream : bool
}.

(** [resp.raw] as [tarfile] sees it: not a gzip tar stream at all, or a stream
    of members that ends properly ([intact]) or breaks off after them. *)
Inductive raw_stream : Type :=
| NotGzipTar
| GzipTar (members : list (string * string)) (intact : bool).

(** A response: its status, what [resp.json()] decodes the body to ([None]
    when the body is no JSON document), and its raw stream. *)
Record Response : Type := mkResponse {
  status_code : Z;
  body_json : option json;
  raw : raw_stream
}.

(** [requests.get] returns a response or raises an exception of the transport
    library; it never raises [HTTPError] itself. *)
Inductive Outcome : Type :=
| Raises
| Reply (r : Response).

(** One row of the table: the dictionary built in the loop of
    [listReleases]. *)
Record ReleaseRecord : Type := mkRelease {
  id : json;
  name : json;
  tag_name : json;
  created_at : option date;
  published_at : option date;
  tarball_url : json;
  zipball_url : json
}.

(** The effects, in the order they happen. *)
Inductive event : Type :=
| EvGet (r : Request)
| EvPrintFound (n : nat)
| EvPrintReleases (rows : list (json * json * json * option date))
| EvPrintDownloading (release url : json)
| EvTarOpen
| EvExtract (dir : string) (members : list (string * string))
| EvPrintExtracted (dir : string).

Definition is_get (e : event) : bool :=
  match e with EvGet _ => true | _ => false end.

(** The requests of a trace, oldest first. *)
Definition requests_of (t : list event) : list Request :=
  omap (fun e => match e with EvGet r => Some r | _ => None end) t.

(* ------------------------------------------------------------------------- *)
(** * The instance                                                           *)
(* ------------------------------------------------------------------------- *)

(** [self.releases] is the empty Python list of [__init__] or a datatable
    [Frame].  [dt.Frame] of a list of dictionaries takes its columns from the
    keys: the frame of the empty list has no column and no row, any other
    frame built here has the seven columns.  A row holds the cells as they
    read back from the frame. *)
Inductive releases_t : Type :=
| PyList
| Frame (rows : list ReleaseRecord).

Definition ncols (rows : list ReleaseRecord) : nat :=
  match rows with [] => 0%nat | _ => 7%nat end.

(** [bool(self.releases)]: a list is true when non-empty; a Frame has no
    [__bool__], so its [__len__] decides, which is its number of columns. *)
Definition releases_truthy (r : releases_t) : bool :=
  match r with
  | PyList => false
  | Frame rows => negb (Nat.eqb (ncols rows) 0)
  end.

Definition loc : Type := nat.

Record client : Type := mkClient {
  releases : releases_t;
  gh_host : string;
  gh_owner : string;
  gh_repo : string;
  gh_endpoint_release : option string;
  gh_default_header : loc
}.

(** The instance, the dictionaries it can reach, and the trace so far. *)
Record state : Type := mkState {
  self : client;
  heap : gmap loc (gmap string string);
  trace : list event
}.

(* ------------------------------------------------------------------------- *)
(** * The monad: state that survives an exception                            *)
(* ------------------------------------------------------------------------- *)

Definition M (A : Type) : Type := state -> result A * state.

Definition mret {A} (a : A) : M A := fun st => (inr a, st).
Definition raise {A} (e : exn) : M A := fun st => (inl e, st).
Definition bindM {A B} (m : M A) (k : A -> M B) : M B := fun st =>
  match m st with
  | (inr a, st') => k a st'
  | (inl e, st') => (inl e, st')
  end.

Declare Scope py_scope.
Delimit Scope py_scope with py.
Notation "x <- m ;; k" := (bindM m (fun x => k))
  (at level 100, m at next level, right associativity) : py_scope.
Notation "m ;; k" := (bindM m (fun _ => k))
  (at level 100, right associativity) : py_scope.

Definition lift {A} (r : result A) : M A := fun st => (r, st).
Definition get_self : M client := fun st => (inr (self st), st).
Definition set_releases (r : releases_t) : M unit := fun st =>
  (inr tt, mkState (mkClient r (gh_host (self st)) (gh_owner (self st))
                      (gh_repo (self st)) (gh_endpoint_release (self st))
                      (gh_default_header (self st)))
                   (heap st) (trace st)).
Definition emit (e : event) : M unit := fun st =>
  (inr tt, mkState (self st) (heap st) (trace st ++ [e])).

(** [h[k] = v] on the dictionary at [h]. *)
Definition dict_set (h : loc) (k v : string) : M unit := fun st =>
  (inr tt, mkState (self st)
             (<[h := <[k := v]> (default ∅ (heap st !! h))]> (heap st))
             (trace st)).
(** Reading the dictionary at [h], as [requests] does when it sends. *)
Definition deref (h : loc) : M (gmap string string) := fun st =>
  (inr (default ∅ (heap st !! h)), st).

(** [except requests.exceptions.HTTPError as e: raise SystemError(e)] *)
Definition except_HTTPError {A} (m : M A) : M A := fun st =>
  match m st with
  | (inl (HTTPError c), st') => (inl (SystemError (HTTPError c)), st')
  | r => r
  end.

Fixpoint mapM {A B} (f : A -> result B) (l : list A) : result (list B) :=
  match l with
  | [] => inr []
  | a :: l' =>
      match f a with
      | inl e => inl e
      | inr b => match mapM f l' with
                 | inl e => inl e
                 | inr bs => inr (b :: bs)
                 end
      end
  end.

(* ------------------------------------------------------------------------- *)
(** * The table library                                                      *)
(* ------------------------------------------------------------------------- *)

(** datatable is not part of the repository, and how it types a column, what
    a column keeps of a value and how [==] compares a column with a value
    differ from Python's own: the class is modelled over what the library
    answers.
    - [frame_error rels]: the exception [dt.Frame] raises on the non-empty
      list of dictionaries [rels] (a column of mixed types), if any;
    - [stored col v]: the cell a column built from the values [col] keeps
      for [v], read back as a Python value ([None] for NA);
    - [eq_error col v]: the exception [f.tag_name == v] raises on the tag
      column [col] (types that do not compare), if any;
    - [cell_eq col c v]: whether [f.tag_name == v] selects a row whose tag
      cell is [c], in the tag column [col]. *)
Record datatable : Type := mkDatatable {
  frame_error : list ReleaseRecord -> option exn;
  stored : list json -> json -> json;
  eq_error : list json -> json -> option exn;
  cell_eq : list json -> json -> json -> bool
}.

(** The row the frame of [rels] holds for the dictionary [r].  The two date
    columns hold dates and [None] only and keep them. *)
Definition store_row (dt : datatable) (rels : list ReleaseRecord)
    (r : ReleaseRecord) : ReleaseRecord :=
  mkRelease (stored dt (map id rels) (id r))
    (stored dt (map name rels) (name r))
    (stored dt (map tag_name rels) (tag_name r))
    (created_at r) (published_at r)
    (stored dt (map tarball_url rels) (tarball_url r))
    (stored dt (map zipball_url rels) (zipball_url r)).

Definition frame_rows (dt : datatable) (rels : list ReleaseRecord)
    : list ReleaseRecord :=
  map (store_row dt rels) rels.

(** The tag column of a frame, and whether [f.tag_name == release] selects
    the row [r] of the frame. *)
Definition tag_column (rows : list ReleaseRecord) : list json :=
  map tag_name rows.

Definition selects (dt : datatable) (rows : list ReleaseRecord)
    (release : json) (r : ReleaseRecord) : bool :=
  cell_eq dt (tag_column rows) (tag_name r) release.

(** [dt.Frame(releases)]: the frame of the empty list has no column and no
    row; otherwise one row for each dictionary, in order, unless the library
    refuses the columns. *)
Definition dt_Frame (dt : datatable) (rels : list ReleaseRecord)
    : result releases_t :=
  match rels with
  | [] => inr (Frame [])
  | _ => match frame_error dt rels with
         | Some e => inl e
         | None => inr (Frame (frame_rows dt rels))
         end
  end.

(* ------------------------------------------------------------------------- *)
(** * The class                                                              *)
(* ------------------------------------------------------------------------- *)

Section Downloader.

(** The network: the answer to a request, given how many requests were
    made before it.  [abspath] is [os.path.abspath], [dt] the table
    library. *)
Variable net : nat -> Request -> Outcome.
Variable abspath : string -> string.
Variable dt : datatable.

Local Open Scope py_scope.

(** '{}/repos/{}/{}/releases'.format(host, owner, repo) *)
Definition __build__release__url__ (c : client) : client :=
  mkClient (releases c) (gh_host c) (gh_owner c) (gh_repo c)
    (Some (gh_host c +:+ "/repos/" +:+ gh_owner c +:+ "/" +:+ gh_repo c
           +:+ "/releases"))
    (gh_default_header c).

(** [__init__]: the header dictionary is a new object of the store. *)
Definition __init__ (owner repo : string)
    (h : gmap loc (gmap string string)) (t : list event) : state :=
  let l := fresh (dom h) in
  mkState
    (__build__release__url__
       (mkClient PyList "https://api.github.com" owner repo None l))
    (<[l := {["Accept" := "application/vnd.github.v3+json"]}]> h)
    t.

(** [requests.get(url, headers = ..., stream = ...)] *)
Definition requests_get (url : string) (headers : loc) (stream : bool)
    : M Response := fun st =>
  let r := mkRequest url (default ∅ (heap st !! headers)) ∅ stream in
  let n := length (requests_of (trace st)) in
  let st' := mkState (self st) (heap st) (trace st ++ [EvGet r]) in
  match net n r with
  | Raises => (inl RequestException, st')
  | Reply resp => (inr resp, st')
  end.

(** [resp.raise_for_status()] *)
Definition raise_for_status (resp : Response) : M unit :=
  if (400 <=? status_code resp) && (status_code resp <? 600)
  then raise (HTTPError (status_code resp))
  else mret tt.

(** [resp.json()] *)
Definition resp_json (resp : Response) : M json :=
  match body_json resp with
  | Some v => mret v
  | None => raise JSONDecodeError
  end.

(** [__print__releases]: the four columns are selected by name. *)
Definition __print__releases : M unit :=
  c <- get_self ;;
  match releases c with
  | PyList => raise TypeError
  | Frame [] => raise KeyError
  | Frame rows =>
      emit (EvPrintReleases
              (map (fun r => (id r, name r, tag_name r, published_at r)) rows))
  end.

(** [__format__date].  [str] of a number, a boolean, a list or a dictionary
    never matches the pattern, whose first five characters are four digits
    and a dash. *)
Definition __format__date (d : json) : result (option date) :=
  if negb (truthy d) then inr None
  else match d with
       | JStr s => match Strptime.strptime_date s with
                   | inr x => inr (Some x)
                   | inl e => inl e
                   end
       | _ => inl ValueError
       end.

(** [for d in data]: what iterating over the decoded document yields. *)
Definition py_iter (data : json) : result (list json) :=
  match data with
  | JArr l => inr l
  | JObj kv => inr (map (fun p => JStr (fst p)) kv)
  | JStr s => inr (map (fun c => JStr (String c EmptyString))
                       (list_ascii_of_string s))
  | _ => inl TypeError
  end.

(** The body of the loop: the dictionary appended for [d]. *)
Definition release_of (d : json) : result ReleaseRecord :=
  match d with
  | JObj kv =>
      match __format__date (dict_get "created_at" kv) with
      | inl e => inl e
      | inr ca =>
          match __format__date (dict_get "published_at" kv) with
          | inl e => inl e
          | inr pa =>
              inr (mkRelease (dict_get "id" kv) (dict_get "name" kv)
                     (dict_get "tag_name" kv) ca pa
                     (dict_get "tarball_url" kv) (dict_get "zipball_url" kv))
          end
      end
  | _ => inl AttributeError
  end.

(** [d['id']] *)
Definition subscript_id (d : json) : result json :=
  match d with
  | JObj kv => match assoc "id" kv with
               | Some v => inr v
               | None => inl KeyError
               end
  | _ => inl TypeError
  end.

Definition truthy_int (n : option Z) : bool :=
  match n with Some z => truthy (JNum z) | None => false end.

Definition str_int (n : option Z) : string :=
  match n with Some z => pretty z | None => "None" end.

Definition listReleases (per_page page : option Z) : M unit :=
  c <- get_self ;;
  (if negb (releases_truthy (releases c)) then
     let headers := gh_default_header c in
     (if truthy_int per_page
      then dict_set headers "per_page" (str_int per_page) else mret tt) ;;
     (if truthy_int page
      then dict_set headers "page" (str_int page) else mret tt) ;;
     resp <- except_HTTPError
               (resp <- requests_get (default "None" (gh_endpoint_release c))
                          headers false ;;
                raise_for_status resp ;;
                mret resp) ;;
     data <- resp_json resp ;;
     ds <- lift (py_iter data) ;;
     rels <- lift (mapM release_of ds) ;;
     ids <- lift (mapM subscript_id ds) ;;
     emit (EvPrintFound (length ids)) ;;
     fr <- lift (dt_Frame dt rels) ;;
     set_releases fr
   else mret tt) ;;
  __print__releases.

(** [tarfile.open(fileobj = resp.raw, mode = 'r|gz')] reads the head of the
    stream. *)
Definition tarfile_open (s : raw_stream)
    : M (list (string * string) * bool) :=
  emit EvTarOpen ;;
  match s with
  | NotGzipTar => raise ReadError
  | GzipTar ms ok => mret (ms, ok)
  end.

(** [file.extractall(path = dir)] writes the members it can read. *)
Definition extractall (f : list (string * string) * bool) (dir : string)
    : M unit :=
  emit (EvExtract dir (fst f)) ;;
  if snd f then mret tt else raise ReadError.

(** [release = tagName; if release == "latest": release = ...].  A list
    takes no tuple as index ([TypeError]); the frame without rows has no
    row 0 ([ValueError] of the library); otherwise the cell of row 0 is read
    back. *)
Definition resolve_release (tagName : string) : M json :=
  c <- get_self ;;
  if String.eqb tagName "latest" then
    match releases c with
    | PyList => raise TypeError
    | Frame [] => raise ValueError
    | Frame (r :: _) => mret (tag_name r)
    end
  else mret (JStr tagName).

(** [self.releases[f.tag_name == release, :].to_dict()['tarball_url'][0]]:
    the frame without columns has no 'tag_name' ([KeyError]); the comparison
    is the library's; [[0]] on the column of an empty selection raises
    [IndexError]. *)
Definition lookup_url (release : json) : M json :=
  c <- get_self ;;
  match releases c with
  | PyList => raise TypeError
  | Frame [] => raise KeyError
  | Frame rows =>
      match eq_error dt (tag_column rows) release with
      | Some e => raise e
      | None =>
          match List.filter (selects dt rows release) rows with
          | [] => raise IndexError
          | r :: _ => mret (tarball_url r)
          end
      end
  end.

(** Lines 136-145: everything after the tag is resolved.  [requests.get]
    on a URL that is not a string raises before anything is sent. *)
Definition download_resolved (outDir : string) (release : json) : M unit :=
  let dir := abspath outDir in
  url <- lookup_url release ;;
  c <- get_self ;;
  except_HTTPError
    (emit (EvPrintDownloading release url) ;;
     resp <- match url with
             | JStr u => requests_get u (gh_default_header c) true
             | _ => raise RequestException
             end ;;
     file <- tarfile_open (raw resp) ;;
     extractall file dir ;;
     raise_for_status resp ;;
     emit (EvPrintExtracted dir)).

Definition downloadRelease (outDir tagName : string) : M unit :=
  release <- resolve_release tagName ;;
  download_resolved outDir release.

(** The state in which [listReleases] sends its request: the two
    assignments to [headers] done. *)
Definition with_headers (per_page page : option Z) (st : state) : state :=
  let h := gh_default_header (self st) in
  let st1 := if truthy_int per_page
             then snd (dict_set h "per_page" (str_int per_page) st) else st in
  if truthy_int page
  then snd (dict_set h "page" (str_int page) st1) else st1.

(** The request [listReleases] sends from a state. *)
Definition listing_request (st : state) : Request :=
  mkRequest (default "None" (gh_endpoint_release (self st)))
    (default ∅ (heap st !! gh_default_header (self st))) ∅ false.

Definition logged (e : event) (st : state) : state :=
  mkState (self st) (heap st) (trace st ++ [e]).

Definition sent (r : Request) (st : state) : state := logged (EvGet r) st.

(** The request [downloadRelease] sends for the archive at [u]. *)
Definition archive_request (u : string) (st : state) : Request :=
  mkRequest u (default ∅ (heap st !! gh_default_header (self st))) ∅ true.

(** Lines 102-114 on the decoded document: the rows of the table and the
    number printed. *)
Definition listing_rows (data : json) : result (list ReleaseRecord * nat) :=
  match py_iter data with
  | inl e => inl e
  | inr ds =>
      match mapM release_of ds with
      | inl e => inl e
      | inr rels =>
          match mapM subscript_id ds with
          | inl e => inl e
          | inr ids => inr (rels, length ids)
          end
      end
  end.

Definition is_http_error (resp : Response) : bool :=
  (400 <=? status_code resp) && (status_code resp <? 600).

(** A caller's use of one instance over its lifetime: any sequence of the
    two public methods, exceptions caught by the caller. *)
Inductive call : Type :=
| ListReleases (per_page page : option Z)
| DownloadRelease (outDir tagName : string).

Definition do_call (c : call) : M unit :=
  match c with
  | ListReleases per_page page => listReleases per_page page
  | DownloadRelease outDir tagName => downloadRelease outDir tagName
  end.

Fixpoint run_calls (cs : list call) (st : state) : state :=
  match cs with
  | [] => st
  | c :: cs' => run_calls cs' (snd (do_call c st))
  end.

End Downloader.

(* ------------------------------------------------------------------------- *)
(** * Timestamps as the remote API writes them                               *)
(* ------------------------------------------------------------------------- *)

(** A timestamp field of a release object: missing (or null), empty, or an
    ISO-8601 UTC timestamp YYYY-MM-DDTHH:MM:SSZ. *)
Inductive stamp : Type :=
| Absent
| Empty
| Stamp (y mo d h mi s : Z).

Definition digit_char (n : Z) : ascii := ascii_of_N (Z.to_N (48 + n)).

Definition two_digits (n : Z) : string :=
  String (digit_char (n / 10)) (String (digit_char (n mod 10)) EmptyString).

Definition four_digits (n : Z) : string :=
  two_digits (n / 100) +:+ two_digits (n mod 100).

Definition timestamp (y mo d h mi s : Z) : string :=
  four_digits y +:+ String "-" (two_digits mo +:+ String "-" (two_digits d +:+
  String "T" (two_digits h +:+ String ":" (two_digits mi +:+ String ":"
  (two_digits s +:+ String "Z" EmptyString))))).

Definition stamp_json (t : stamp) : json :=
  match t with
  | Absent => JNull
  | Empty => JStr ""
  | Stamp y mo d h mi s => JStr (timestamp y mo d h mi s)
  end.

(** The date-only truncation. *)
Definition stamp_date (t : stamp) : option date :=
  match t with
  | Stamp y mo d _ _ _ => Some (Date y mo d)
  | _ => None
  end.

(** A calendar date of years 1 to 9999 and a time of day. *)
Definition valid_stamp (t : stamp) : Prop :=
  match t with
  | Stamp y mo d h mi s =>
      1 <= y <= 9999 /\ 1 <= mo <= 12 /\
      1 <= d <= Strptime.days_in_month y mo /\
      0 <= h <= 23 /\ 0 <= mi <= 59 /\ 0 <= s <= 59
  | _ => True
  end.

(** A release object of the listing, described by its dictionary and its two
    timestamp fields. *)
Definition described : Type := list (string * json) * stamp * stamp.

Definition object_of (o : described) : json := JObj o.1.1.

Definition dated (o : described) : Prop :=
  dict_get "created_at" o.1.1 = stamp_json o.1.2 /\ valid_stamp o.1.2 /\
  dict_get "published_at" o.1.1 = stamp_json o.2 /\ valid_stamp o.2.

Definition dates_of (o : described) (r : ReleaseRecord) : Prop :=
  created_at r = stamp_date o.1.2 /\ published_at r = stamp_date o.2.

(** The dictionary [gh_default_header] points to. *)
Definition default_header (st : state) : gmap string string :=
  default ∅ (heap st !! gh_default_header (self st)).

(** The header fields a request carries once [listReleases] has written to
    the shared dictionary. *)
Definition paginated (d : gmap string string) : Prop :=
  d !! "Accept" = Some "application/vnd.github.v3+json" /\
  is_Some (d !! "per_page") /\ is_Some (d !! "page").

(** The field values the pattern of [strptime] lets through, before the
    range checks of [datetime]: any four-digit year, seconds up to 61. *)
Definition in_pattern (t : stamp) : Prop :=
  match t with
  | Stamp y mo d h mi s =>
      0 <= y <= 9999 /\ 1 <= mo <= 12 /\ 1 <= d <= 31 /\
      0 <= h <= 23 /\ 0 <= mi <= 59 /\ 0 <= s <= 61
  | _ => True
  end.

Definition valid_date (d : date) : Prop :=
  1 <= year d <= 9999 /\ 1 <= month d <= 12 /\
  1 <= day d <= Strptime.days_in_month (year d) (month d).

(** What a listing body that is no JSON array makes [listReleases] raise. *)
Definition body_error (b : option json) : option exn :=
  match b with
  | None => Some JSONDecodeError
  | Some JNull | Some (JBool _) | Some (JNum _) => Some TypeError
  | Some (JObj (_ :: _)) | Some (JStr (String _ _)) => Some AttributeError
  | Some (JArr _) | Some (JObj []) | Some (JStr EmptyString) => None
  end.

(** '{}/repos/{}/{}/releases' on the host of [__init__]. *)
Definition releases_url (owner repo : string) : string :=
  "https://api.github.com" +:+ "/repos/" +:+ owner +:+ "/" +:+ repo
  +:+ "/releases".

(** The four columns [__print__releases] selects. *)
Definition printed_columns (rows : list ReleaseRecord)
    : list (json * json * json * option date) :=
  map (fun r => (id r, name r, tag_name r, published_at r)) rows.

(** The attributes of the instance that name the repository and the header
    dictionary: everything but the snapshot. *)
Definition same_identity (c c' : client) : Prop :=
  gh_host c' = gh_host c /\ gh_owner c' = gh_owner c /\
  gh_repo c' = gh_repo c /\
  gh_endpoint_release c' = gh_endpoint_release c /\
  gh_default_header c' = gh_default_header c.

(* ------------------------------------------------------------------------- *)
(** * Scenarios used to exercise the statements                              *)
(* ------------------------------------------------------------------------- *)

Definition accept_header : gmap string string :=
  {["Accept" := "application/vnd.github.v3+json"]}.

(** A table library that accepts every list of dictionaries, keeps every
    cell and compares cells by value: datatable on columns of one type with
    ordinary values. *)
Definition dt_plain : datatable :=
  mkDatatable (fun _ => None) (fun _ v => v) (fun _ _ => None)
    (fun _ c v => py_eqb c v).




Definition demo_v2 : json :=
  JObj [("id", JNum 7); ("name", JStr "Second"); ("tag_name", JStr "v2");
        ("created_at", JStr "2021-09-10T14:23:00Z");
        ("published_at", JStr "2021-10-02T08:00:59Z");
        ("tarball_url", JStr "https://api.github.com/tarball/v2")].

Definition demo_v1 : json :=
  JObj [("id", JNum 3); ("tag_name", JStr "v1");
        ("created_at", JStr ""); ("published_at", JNull);
        ("tarball_url", JStr "https://api.github.com/tarball/v1")].

Definition ok_listing (data : json) : Response :=
  mkResponse 200 (Some data) NotGzipTar.

Definition ok_archive : Response :=
  mkResponse 200 None (GzipTar [("a.txt", "A"); ("sub/b.txt", "B")] true).

(** A server with two releases: listings answer with both, archive requests
    with a tarball. *)
Definition demo_net (n : nat) (r : Request) : Outcome :=
  if req_stream r then Reply ok_archive
  else Reply (ok_listing (JArr [demo_v2; demo_v1])).

Definition same_path (p : string) : string := p.

Definition demo_client : state := __init__ "octocat" "hello" ∅ [].

Definition demo_populated : state :=
  snd (listReleases demo_net dt_plain (Some 30) (Some 1) demo_client).

(** The network is down. *)
Definition net_down (n : nat) (r : Request) : Outcome := Raises.

(** Every request is answered 300 Multiple Choices, with a listing as
    body. *)
Definition net_multiple_choices (n : nat) (r : Request) : Outcome :=
  Reply (mkResponse 300 (Some (JArr [demo_v2])) NotGzipTar).

(** A repository without releases. *)
Definition net_no_release (n : nat) (r : Request) : Outcome :=
  Reply (ok_listing (JArr [])).

(** A listing whose only release object has no "id". *)
Definition net_no_id (n : nat) (r : Request) : Outcome :=
  Reply (ok_listing
           (JArr [JObj [("name", JStr "First"); ("tag_name", JStr "v1");
                        ("tarball_url",
                         JStr "https://api.github.com/tarball/v1")]])).

(** Listings succeed; the archive is gone: 404 with a JSON error body. *)
Definition net_archive_gone (n : nat) (r : Request) : Outcome :=
  if req_stream r
  then Reply (mkResponse 404
                (Some (JObj [("message", JStr "Not Found")])) NotGzipTar)
  else Reply (ok_listing (JArr [demo_v2; demo_v1])).


(** Every request is answered 404. *)
Definition net_not_found (n : nat) (r : Request) : Outcome :=
  Reply (mkResponse 404 (Some (JObj [("message", JStr "Not Found")]))
           NotGzipTar).

(** A listing that is a JSON object, as the remote API words its messages. *)
Definition net_message (n : nat) (r : Request) : Outcome :=
  Reply (ok_listing (JObj [("message", JStr "Moved")])).

(** A listing of two releases; the second has a date without a time. *)
Definition net_bad_date (n : nat) (r : Request) : Outcome :=
  Reply (ok_listing
           (JArr [demo_v2;
                  JObj [("id", JNum 3); ("tag_name", JStr "v1");
                        ("created_at", JStr "2021-09-01")]])).

Definition demo_described : list described :=
  [([("id", JNum 7); ("name", JStr "Second"); ("tag_name", JStr "v2");
     ("created_at", JStr "2021-09-10T14:23:00Z");
     ("published_at", JStr "2021-10-02T08:00:59Z");
     ("tarball_url", JStr "https://api.github.com/tarball/v2")],
    Stamp 2021 9 10 14 23 0, Stamp 2021 10 2 8 0 59);
   ([("id", JNum 3); ("tag_name", JStr "v1");
     ("created_at", JStr ""); ("published_at", JNull);
     ("tarball_url", JStr "https://api.github.com/tarball/v1")],
    Empty, Absent)].

(** The instance after a listing of zero releases. *)
Definition demo_no_release : state :=
  snd (listReleases net_no_release dt_plain (Some 30) (Some 1) demo_client).

(** A listing whose release was published in the leap second of 2016. *)
Definition net_leap_second (n : nat) (r : Request) : Outcome :=
  Reply (ok_listing
           (JArr [JObj [("id", JNum 1); ("tag_name", JStr "v1");
                        ("created_at", JStr "2016-12-31T23:59:59Z");
                        ("published_at", JStr "2016-12-31T23:59:60Z")]])).








Definition demo_row_v2 : ReleaseRecord :=
  mkRelease (JNum 7) (JStr "Second") (JStr "v2")
    (Some (Date 2021 9 10)) (Some (Date 2021 10 2))
    (JStr "https://api.github.com/tarball/v2") JNull.

Definition demo_row_v1 : ReleaseRecord :=
  mkRelease (JNum 3) JNull (JStr "v1") None None
    (JStr "https://api.github.com/tarball/v1") JNull.

(* ========================================================================= *)
(** * Properties                                                             *)
(* ========================================================================= *)

Example strptime_example :
  Strptime.strptime_date "2021-09-10T14:23:00Z" = inr (Date 2021 9 10).
Proof. reflexivity. Qed.

Example strptime_leap_second :
  Strptime.strptime_date "2016-12-31T23:59:60Z" = inl ValueError.
Proof. reflexivity. Qed.

Example strptime_not_padded :
  Strptime.strptime_date "2021-9-1T4:23:00z" = inr (Date 2021 9 1).
Proof. reflexivity. Qed.

Example timestamp_example :
  timestamp 2021 9 10 14 23 0 = "2021-09-10T14:23:00Z".
Proof. reflexivity. Qed.

(* ------------------------------------------------------------------------- *)
(** ** Parsing a timestamp                                                   *)
(* ------------------------------------------------------------------------- *)

Section StrptimeFacts.
Import Strptime.

(** A number below [k] is one of [0 .. k-1]: the field lemmas go through
    the finitely many values of a field. *)
Ltac each_value n k :=
  let m := fresh "m" in
  let Hm := fresh "Hm" in
  assert (exists m : nat, n = Z.of_nat m /\ (m < k)%nat) as (m & -> & Hm)
    by (exists (Z.to_nat n); lia);
  repeat first
    [ lia
    | destruct m as [|m];
      [first [vm_compute; repeat (etransitivity; [apply app_nil_r|]);
              reflexivity | lia]|] ].

Lemma two_any (n : Z) (rest : string) :
  0 <= n <= 99 ->
  two (cls 0 9) (cls 0 9) (two_digits n +:+ rest) = [(n, rest)].
Proof. intros Hn. each_value n 100%nat. Qed.

Lemma re_Y_four (y : Z) (rest : string) :
  0 <= y <= 9999 -> re_Y (four_digits y +:+ rest) = [(y, rest)].
Proof.
  intros Hy. unfold re_Y, four_digits.
  pose proof (Z.div_mod y 100 ltac:(lia)) as Hdm.
  pose proof (Z.mod_pos_bound y 100 ltac:(lia)) as Hlo'.
  assert (Hhi : 0 <= y / 100 <= 99) by lia.
  assert (Hlo : 0 <= y mod 100 <= 99) by lia.
  unfold bind at 1.
  replace ((two_digits (y / 100) +:+ two_digits (y mod 100)) +:+ rest)
    with (two_digits (y / 100) +:+ (two_digits (y mod 100) +:+ rest))
    by reflexivity.
  rewrite (two_any _ _ Hhi). cbn [flat_map].
  unfold bind at 1. rewrite (two_any _ _ Hlo). cbn [flat_map ret app].
  do 2 f_equal. lia.
Qed.

Section Fields.
Context {B : Type} (k : Z -> re B) (rest : string).

Lemma field_Y (n : Z) : 0 <= n <= 9999 ->
  bind re_Y (fun v => skip (lit "-") (k v))
    (four_digits n +:+ String "-" rest) = k n rest.
Proof.
  intros Hn. unfold bind at 1. rewrite (re_Y_four _ _ Hn).
  cbn [flat_map]. unfold skip, bind, lit.
  change (lower "-" =? lower "-")%char with true.
  cbn [flat_map]. by rewrite !app_nil_r.
Qed.

Lemma field_m (n : Z) : 1 <= n <= 12 ->
  bind re_m (fun v => skip (lit "-") (k v))
    (two_digits n +:+ String "-" rest) = k n rest.
Proof. intros Hn. each_value n 13%nat. Qed.

Lemma field_d (n : Z) : 1 <= n <= 31 ->
  bind re_d (fun v => skip (lit "T") (k v))
    (two_digits n +:+ String "T" rest) = k n rest.
Proof. intros Hn. each_value n 32%nat. Qed.

Lemma field_H (n : Z) : 0 <= n <= 23 ->
  bind re_H (fun v => skip (lit ":") (k v))
    (two_digits n +:+ String ":" rest) = k n rest.
Proof. intros Hn. each_value n 24%nat. Qed.

Lemma field_M (n : Z) : 0 <= n <= 59 ->
  bind re_M (fun v => skip (lit ":") (k v))
    (two_digits n +:+ String ":" rest) = k n rest.
Proof. intros Hn. each_value n 60%nat. Qed.

Lemma field_S (n : Z) : 0 <= n <= 59 ->
  bind re_S (fun v => skip (lit "Z") (k v))
    (two_digits n +:+ String "Z" rest) = k n rest.
Proof. intros Hn. each_value n 60%nat. Qed.
End Fields.

Lemma format_regex_timestamp (y mo d h mi s : Z) :
  valid_stamp (Stamp y mo d h mi s) ->
  format_regex (timestamp y mo d h mi s)
  = [((y, mo, d, h, mi, s), EmptyString)].
Proof.
  intros (Hy & Hmo & Hd & Hh & Hmi & Hs).
  assert (Hd' : 1 <= d <= 31).
  { unfold days_in_month in Hd.
    repeat match type of Hd with context [if ?b then _ else _] =>
             destruct b end; lia. }
  unfold format_regex, timestamp.
  rewrite field_Y by lia. rewrite field_m by lia.
  rewrite field_d by lia. rewrite field_H by lia.
  rewrite field_M by lia.
  rewrite field_S by lia. reflexivity.
Qed.

Lemma strptime_timestamp (y mo d h mi s : Z) :
  valid_stamp (Stamp y mo d h mi s) ->
  strptime_date (timestamp y mo d h mi s) = inr (Date y mo d).
Proof.
  intros Hv. unfold strptime_date.
  rewrite (format_regex_timestamp _ _ _ _ _ _ Hv). cbn [String.eqb negb].
  destruct Hv as (Hy & Hmo & Hd & Hh & Hmi & Hs).
  replace (datetime_ok y mo d h mi s) with true; [done|].
  symmetry. unfold datetime_ok.
  repeat (apply andb_true_intro; split); apply Z.leb_le; lia.
Qed.

End StrptimeFacts.

Lemma format_date_stamp (t : stamp) :
  valid_stamp t -> __format__date (stamp_json t) = inr (stamp_date t).
Proof.
  destruct t as [| |y mo d h mi s]; [done..|]. intros Hv.
  unfold __format__date. cbn [stamp_json stamp_date].
  rewrite (strptime_timestamp _ _ _ _ _ _ Hv). reflexivity.
Qed.

(* ------------------------------------------------------------------------- *)
(** ** The two methods, case by case                                         *)
(* ------------------------------------------------------------------------- *)

Section Facts.
Variable net : nat -> Request -> Outcome.
Variable abspath : string -> string.
Variable dt : datatable.

Lemma truthy_frame (r : releases_t) :
  releases_truthy r = true <-> exists x rows, r = Frame (x :: rows).
Proof.
  split.
  - destruct r as [|[|x rows]]; [done..|]. eauto.
  - by intros (x & rows & ->).
Qed.

Lemma falsy_frame (r : releases_t) :
  releases_truthy r = false <-> r = PyList \/ r = Frame [].
Proof.
  split.
  - destruct r as [|[|x rows]]; [by left|by right|done].
  - by intros [-> | ->].
Qed.

(** A populated snapshot: the call prints the table and nothing else. *)
Lemma listReleases_hit (per_page page : option Z) (st : state) :
  releases_truthy (releases (self st)) = true ->
  exists rows,
    releases (self st) = Frame rows /\
    listReleases net dt per_page page st
    = (inr tt,
       mkState (self st) (heap st)
         (trace st ++
          [EvPrintReleases
             (map (fun r => (id r, name r, tag_name r, published_at r))
                  rows)])).
Proof.
  intros Ht. destruct (proj1 (truthy_frame _) Ht) as (x & rows & Hr).
  exists (x :: rows). split; [done|].
  unfold listReleases, bindM, get_self, __print__releases, emit.
  cbn. rewrite Ht. cbn. rewrite Hr. reflexivity.
Qed.

(** An empty snapshot: the request goes out with the updated headers, and
    the answer decides the rest. *)
Lemma listReleases_miss (per_page page : option Z) (st : state) :
  releases_truthy (releases (self st)) = false ->
  let st1 := with_headers per_page page st in
  let r := listing_request st1 in
  let st2 := sent r st1 in
  listReleases net dt per_page page st
  = match net (length (requests_of (trace st))) r with
    | Raises => (inl RequestException, st2)
    | Reply resp =>
        if is_http_error resp
        then (inl (SystemError (HTTPError (status_code resp))), st2)
        else match body_json resp with
             | None => (inl JSONDecodeError, st2)
             | Some data =>
                 match listing_rows data with
                 | inl e => (inl e, st2)
                 | inr (rels, n) =>
                     match dt_Frame dt rels with
                     | inl e => (inl e, logged (EvPrintFound n) st2)
                     | inr fr =>
                         __print__releases
                           (snd (set_releases fr
                                   (logged (EvPrintFound n) st2)))
                     end
                 end
             end
    end.
Proof.
  intros Hf. destruct st as [c hp tr]. cbn [self heap trace] in *.
  unfold listReleases, with_headers, listing_request, sent, logged,
    listing_rows, is_http_error.
  unfold bindM, get_self, dict_set, except_HTTPError, requests_get,
    raise_for_status, resp_json, lift, emit, set_releases, mret, raise.
  cbn [self heap trace fst snd]. rewrite Hf. cbn [negb].
  destruct (truthy_int per_page), (truthy_int page);
    cbn [self heap trace fst snd];
    (destruct (net _ _) as [|resp]; [reflexivity|]);
    (destruct (_ && _); [reflexivity|]);
    (destruct (body_json resp) as [data|]; [|reflexivity]);
    (destruct (py_iter data) as [e|ds]; [reflexivity|]);
    (destruct (mapM release_of ds) as [e|rels]; [reflexivity|]);
    (destruct (mapM subscript_id ds) as [e|ids]; [reflexivity|]);
    (destruct (dt_Frame dt rels) as [e|fr]; reflexivity).
Qed.

Lemma requests_of_app (t1 t2 : list event) :
  requests_of (t1 ++ t2) = requests_of t1 ++ requests_of t2.
Proof. apply omap_app. Qed.

Lemma resolve_release_state (tagName : string) (st : state) :
  snd (resolve_release tagName st) = st.
Proof.
  unfold resolve_release, bindM, get_self. cbn.
  destruct (String.eqb tagName "latest"); [|done].
  by destruct (releases (self st)) as [|[|x rows]].
Qed.

Lemma lookup_url_state (release : json) (st : state) :
  snd (lookup_url dt release st) = st.
Proof.
  unfold lookup_url, bindM, get_self. cbn.
  destruct (releases (self st)) as [|[|x rows]]; [done..|].
  destruct (eq_error dt _ release); [done|].
  by destruct (List.filter _ _).
Qed.


Lemma filter_first {A} (f : A -> bool) (pre post : list A) (r : A) :
  Forall (fun x => f x = false) pre -> f r = true ->
  List.filter f (pre ++ r :: post) = r :: List.filter f post.
Proof.
  intros Hpre Hr. induction Hpre as [|y l Hy _ IH]; simpl.
  - by rewrite Hr.
  - rewrite Hy. exact IH.
Qed.



(** Some row is selected: the first of them in the order of the table gives
    the URL. *)
Lemma lookup_url_first (release : json) (st : state)
    (pre post : list ReleaseRecord) (r : ReleaseRecord) :
  releases (self st) = Frame (pre ++ r :: post) ->
  eq_error dt (tag_column (pre ++ r :: post)) release = None ->
  Forall (fun x => selects dt (pre ++ r :: post) release x = false) pre ->
  selects dt (pre ++ r :: post) release r = true ->
  lookup_url dt release st = (inr (tarball_url r), st).
Proof.
  intros Hr He Hpre Hm. unfold lookup_url, bindM, get_self. cbn [fst snd].
  rewrite Hr. pose proof (filter_first _ _ post _ Hpre Hm) as Hfil.
  destruct pre as [|y pre']; cbn [app] in *; by rewrite He, Hfil.
Qed.

(** After the lookup: the announcement, the request, the stream, the
    extraction, and only then the status. *)
Lemma download_resolved_found (outDir : string) (release url : json)
    (st : state) :
  lookup_url dt release st = (inr url, st) ->
  let st1 := logged (EvPrintDownloading release url) st in
  download_resolved net abspath dt outDir release st
  = match url with
    | JStr u =>
        let st2 := sent (archive_request u st1) st1 in
        match net (length (requests_of (trace st1))) (archive_request u st1)
        with
        | Raises => (inl RequestException, st2)
        | Reply resp =>
            let st3 := logged EvTarOpen st2 in
            match raw resp with
            | NotGzipTar => (inl ReadError, st3)
            | GzipTar ms ok =>
                let st4 := logged (EvExtract (abspath outDir) ms) st3 in
                if ok then
                  if is_http_error resp
                  then (inl (SystemError (HTTPError (status_code resp))), st4)
                  else (inr tt, logged (EvPrintExtracted (abspath outDir)) st4)
                else (inl ReadError, st4)
            end
        end
    | _ => (inl RequestException, st1)
    end.
Proof.
  intros Hl. destruct st as [c hp tr].
  unfold download_resolved. unfold bindM at 1. rewrite Hl.
  unfold archive_request, sent, logged, is_http_error.
  unfold bindM, get_self, except_HTTPError, requests_get, tarfile_open,
    extractall, raise_for_status, emit, mret, raise.
  cbn [self heap trace fst snd].
  destruct url as [| | |u| |]; try reflexivity.
  destruct (net _ _) as [|resp]; [reflexivity|].
  unfold bindM, emit, mret, raise. cbn [self heap trace fst snd].
  destruct (raw resp) as [|ms [|]]; try reflexivity.
  cbn [self heap trace fst snd].
  destruct (_ && _); reflexivity.
Qed.

Lemma download_resolved_lost (outDir : string) (release : json) (e : exn)
    (st : state) :
  lookup_url dt release st = (inl e, st) ->
  download_resolved net abspath dt outDir release st = (inl e, st).
Proof.
  intros Hl. unfold download_resolved. unfold bindM at 1. by rewrite Hl.
Qed.

(** *** What a call leaves behind *)

Lemma requests_of_logged (e : event) (st : state) :
  is_get e = false ->
  requests_of (trace (logged e st)) = requests_of (trace st).
Proof.
  intros He. cbn. rewrite requests_of_app.
  destruct e; try discriminate; cbn; by rewrite app_nil_r.
Qed.

Lemma requests_of_sent (r : Request) (st : state) :
  requests_of (trace (sent r st)) = requests_of (trace st) ++ [r].
Proof. cbn. by rewrite requests_of_app. Qed.

Lemma with_headers_frame (per_page page : option Z) (st : state) :
  self (with_headers per_page page st) = self st /\
  trace (with_headers per_page page st) = trace st.
Proof.
  unfold with_headers, dict_set.
  by destruct (truthy_int per_page), (truthy_int page).
Qed.

Lemma print_releases_frame (st : state) :
  self (snd (__print__releases st)) = self st /\
  heap (snd (__print__releases st)) = heap st /\
  requests_of (trace (snd (__print__releases st))) = requests_of (trace st).
Proof.
  unfold __print__releases, bindM, get_self, raise, emit. cbn.
  destruct (releases (self st)) as [|[|x rows]]; cbn; try done.
  rewrite requests_of_app. cbn. by rewrite app_nil_r.
Qed.

(** A fetching call: the headers are updated in place, one request goes
    out, and the snapshot is either left alone or replaced by a frame. *)
Lemma listReleases_miss_state (per_page page : option Z) (st : state) :
  releases_truthy (releases (self st)) = false ->
  let st1 := with_headers per_page page st in
  let st' := snd (listReleases net dt per_page page st) in
  heap st' = heap st1 /\
  gh_default_header (self st') = gh_default_header (self st) /\
  requests_of (trace st') = requests_of (trace st) ++ [listing_request st1] /\
  (releases (self st') = releases (self st) \/
   exists data rels n,
     net (length (requests_of (trace st))) (listing_request st1)
     = Reply data /\ is_http_error data = false /\
     (exists v, body_json data = Some v /\ listing_rows v = inr (rels, n)) /\
     dt_Frame dt rels = inr (releases (self st'))).
Proof.
  intros Hf st1 st'. subst st'. rewrite (listReleases_miss _ _ _ Hf).
  fold st1. destruct (with_headers_frame per_page page st) as [Hs Ht].
  fold st1 in Hs, Ht.
  assert (Hbase : requests_of (trace (sent (listing_request st1) st1))
                  = requests_of (trace st) ++ [listing_request st1]).
  { by rewrite requests_of_sent, Ht. }
  destruct (net _ _) as [|resp] eqn:Hnet.
  { cbn [snd]. repeat split; try done.
    - cbn. by rewrite Hs.
    - left. cbn. by rewrite Hs. }
  destruct (is_http_error resp) eqn:Herr.
  { cbn [snd]. repeat split; try done.
    - cbn. by rewrite Hs.
    - left. cbn. by rewrite Hs. }
  destruct (body_json resp) as [data|] eqn:Hbody.
  2:{ cbn [snd]. repeat split; try done.
      - cbn. by rewrite Hs.
      - left. cbn. by rewrite Hs. }
  destruct (listing_rows data) as [e|[rels n]] eqn:Hrows.
  { cbn [snd]. repeat split; try done.
    - cbn. by rewrite Hs.
    - left. cbn. by rewrite Hs. }
  assert (Hfound : requests_of
                     (trace (logged (EvPrintFound n)
                               (sent (listing_request st1) st1)))
                   = requests_of (trace st) ++ [listing_request st1])
    by by rewrite requests_of_logged.
  destruct (dt_Frame dt rels) as [e|fr] eqn:Hfr.
  { cbn [snd]. repeat split; try done.
    - cbn. by rewrite Hs.
    - left. cbn. by rewrite Hs. }
  destruct (print_releases_frame
              (snd (set_releases fr
                      (logged (EvPrintFound n)
                         (sent (listing_request st1) st1)))))
    as (Hps & Hph & Hpt).
  rewrite Hps, Hph, Hpt. cbn [snd].
  repeat split.
  - cbn. by rewrite Hs.
  - exact Hfound.
  - right. exists resp, rels, n. repeat split; try done. by exists data.
Qed.

Lemma downloadRelease_frame (outDir tagName : string) (st : state) :
  let st' := snd (downloadRelease net abspath dt outDir tagName st) in
  self st' = self st /\ heap st' = heap st /\
  (requests_of (trace st') = requests_of (trace st) \/
   exists u, requests_of (trace st')
             = requests_of (trace st) ++ [archive_request u st]).
Proof.
  cbn zeta. unfold downloadRelease. unfold bindM.
  pose proof (resolve_release_state tagName st) as Hres.
  destruct (resolve_release tagName st) as [[e|release] s]; cbn in Hres;
    subst s; [cbn [snd]; by repeat split; auto|].
  pose proof (lookup_url_state release st) as Hl.
  destruct (lookup_url dt release st) as [[e|url] s] eqn:Hlook; cbn in Hl;
    subst s.
  { rewrite (download_resolved_lost _ _ _ _ Hlook).
    cbn [snd]. by repeat split; auto. }
  rewrite (download_resolved_found _ _ _ _ Hlook). cbn zeta.
  set (st1 := logged (EvPrintDownloading release url) st).
  assert (H1 : requests_of (trace st1) = requests_of (trace st))
    by by apply requests_of_logged.
  destruct url as [| | |u| |]; try by (cbn [snd]; repeat split; auto).
  assert (Hreq : archive_request u st1 = archive_request u st) by done.
  assert (H2 : requests_of (trace (sent (archive_request u st1) st1))
               = requests_of (trace st) ++ [archive_request u st])
    by by rewrite requests_of_sent, H1, Hreq.
  destruct (net _ _) as [|resp]; [cbn [snd]; by repeat split; eauto|].
  destruct (raw resp) as [|ms [|]]; [| destruct (is_http_error resp) |];
    cbn [snd]; (split; [done|]); (split; [done|]); right; exists u;
    rewrite ?requests_of_logged by done; exact H2.
Qed.

Lemma do_call_cached (c : call) (st : state) :
  releases_truthy (releases (self st)) = true ->
  self (snd (do_call net abspath dt c st)) = self st /\
  heap (snd (do_call net abspath dt c st)) = heap st.
Proof.
  intros Ht. destruct c as [per_page page|outDir tagName]; cbn [do_call].
  - destruct (listReleases_hit per_page page st Ht) as (rows & _ & ->).
    done.
  - destruct (downloadRelease_frame outDir tagName st) as (? & ? & _).
    done.
Qed.

Lemma run_calls_cached (cs : list call) (st : state) :
  releases_truthy (releases (self st)) = true ->
  self (run_calls net abspath dt cs st) = self st /\
  heap (run_calls net abspath dt cs st) = heap st.
Proof.
  revert st. induction cs as [|c cs IH]; intros st Ht; [done|].
  cbn [run_calls].
  destruct (do_call_cached c st Ht) as [Hs Hh].
  destruct (IH (snd (do_call net abspath dt c st))) as [Hs' Hh'].
  { by rewrite Hs. }
  split; congruence.
Qed.

(** C1.  Once the snapshot of an instance is populated, whatever calls the
    caller makes afterwards leave it as it is, and a call of [listReleases]
    -- with any [per_page] and [page] -- returns normally, sends no request
    and leaves the snapshot unchanged. *)
Theorem listReleases_cached_snapshot (cs : list call)
    (per_page page : option Z) (st : state) :
  releases_truthy (releases (self st)) = true ->
  let st1 := run_calls net abspath dt cs st in
  let out := listReleases net dt per_page page st1 in
  releases (self st1) = releases (self st) /\
  fst out = inr tt /\
  releases (self (snd out)) = releases (self st) /\
  requests_of (trace (snd out)) = requests_of (trace st1).
Proof.
  intros Ht st1 out.
  destruct (run_calls_cached cs st Ht) as [Hs _]. fold st1 in Hs.
  assert (Ht1 : releases_truthy (releases (self st1)) = true)
    by by rewrite Hs.
  subst out.
  destruct (listReleases_hit per_page page st1 Ht1) as (rows & _ & ->).
  cbn [fst snd self trace]. rewrite Hs. repeat split.
  rewrite requests_of_app. cbn. by rewrite app_nil_r.
Qed.

(** C2.  On a populated snapshot, [downloadRelease] with the tag "latest"
    goes on with the [tag_name] of the record at index 0, whatever the
    dates of the records; with any other tag it goes on with the string it
    was given. *)
Theorem downloadRelease_latest_is_first_row (outDir tagName : string)
    (st : state) (rows : list ReleaseRecord) :
  releases (self st) = Frame rows ->
  releases_truthy (releases (self st)) = true ->
  exists r,
    rows !! 0%nat = Some r /\
    resolve_release "latest" st = (inr (tag_name r), st) /\
    downloadRelease net abspath dt outDir "latest" st
    = download_resolved net abspath dt outDir (tag_name r) st /\
    (tagName <> "latest" ->
     resolve_release tagName st = (inr (JStr tagName), st) /\
     downloadRelease net abspath dt outDir tagName st
     = download_resolved net abspath dt outDir (JStr tagName) st).
Proof.
  intros Hr Ht. destruct (proj1 (truthy_frame _) Ht) as (x & rows' & Hr').
  assert (rows = x :: rows') as -> by congruence.
  exists x. split; [done|].
  assert (Hlatest : resolve_release "latest" st = (inr (tag_name x), st)).
  { unfold resolve_release, bindM, get_self. cbn. by rewrite Hr. }
  split; [done|]. split.
  { unfold downloadRelease, bindM. by rewrite Hlatest. }
  intros Hne.
  assert (Hother : resolve_release tagName st = (inr (JStr tagName), st)).
  { unfold resolve_release, bindM, get_self. cbn.
    by destruct (String.eqb_spec tagName "latest"). }
  split; [done|]. unfold downloadRelease, bindM. by rewrite Hother.
Qed.


End Facts.

Lemma listReleases_cached_snapshot_witness :
  releases_truthy (releases (self demo_populated)) = true /\
  let st1 := run_calls demo_net same_path dt_plain
               [DownloadRelease "out" "latest"; ListReleases (Some 5) None]
               demo_populated in
  let out := listReleases demo_net dt_plain (Some 100) (Some 2) st1 in
  releases (self st1) = releases (self demo_populated) /\
  fst out = inr tt /\
  releases (self (snd out)) = releases (self demo_populated) /\
  requests_of (trace (snd out)) = requests_of (trace st1).
Proof.
  split; [reflexivity|].
  apply (listReleases_cached_snapshot demo_net same_path). reflexivity.
Defined.


Example demo_populated_rows :
  releases (self demo_populated) = Frame [demo_row_v2; demo_row_v1].
Proof. reflexivity. Qed.

Lemma downloadRelease_latest_is_first_row_witness :
  exists r,
    [demo_row_v2; demo_row_v1] !! 0%nat = Some r /\
    resolve_release "latest" demo_populated = (inr (tag_name r), demo_populated) /\
    downloadRelease demo_net same_path dt_plain "out" "latest" demo_populated
    = download_resolved demo_net same_path dt_plain "out" (tag_name r) demo_populated /\
    resolve_release "v1" demo_populated = (inr (JStr "v1"), demo_populated) /\
    downloadRelease demo_net same_path dt_plain "out" "v1" demo_populated
    = download_resolved demo_net same_path dt_plain "out" (JStr "v1") demo_populated.
Proof.
  destruct (downloadRelease_latest_is_first_row demo_net same_path dt_plain "out" "v1"
              demo_populated [demo_row_v2; demo_row_v1])
    as (r & Hrow & Hres & Hdl & Hother); [reflexivity..|].
  exists r. repeat split; try assumption; apply Hother; discriminate.
Defined.



(* ------------------------------------------------------------------------- *)
(** ** The listing                                                           *)
(* ------------------------------------------------------------------------- *)

Section Listing.
Variable net : nat -> Request -> Outcome.
Variable dt : datatable.

Lemma release_of_dates (o : described) :
  dated o -> exists r, release_of (object_of o) = inr r /\ dates_of o r.
Proof.
  destruct o as [[kv ca] pa]. intros (Hca & Hvca & Hpa & Hvpa).
  cbn [fst snd] in Hca, Hpa, Hvca, Hvpa.
  unfold release_of, object_of. cbn [fst snd].
  rewrite Hca, Hpa, (format_date_stamp _ Hvca), (format_date_stamp _ Hvpa).
  eexists. split; [reflexivity|]. by split.
Qed.

Lemma mapM_release_of_dates (objs : list described) :
  Forall dated objs ->
  exists rels, mapM release_of (map object_of objs) = inr rels /\
               Forall2 dates_of objs rels.
Proof.
  induction 1 as [|o objs Ho _ (rels & IH & Hall)].
  - exists []. by split.
  - destruct (release_of_dates o Ho) as (r & Hr & Hd).
    exists (r :: rels). cbn [map mapM]. rewrite Hr, IH.
    split; [done|by constructor].
Qed.

Lemma mapM_subscript_id (objs : list described) :
  Forall (fun o => is_Some (assoc "id" o.1.1)) objs ->
  exists ids, mapM subscript_id (map object_of objs) = inr ids.
Proof.
  induction 1 as [|o objs [v Hv] _ (ids & IH)].
  - by exists [].
  - exists (v :: ids). cbn [map mapM]. unfold object_of at 1.
    cbn [subscript_id]. by rewrite Hv, IH.
Qed.

Lemma frame_rows_dates (objs : list described) (rels : list ReleaseRecord) :
  Forall2 dates_of objs rels -> Forall2 dates_of objs (frame_rows dt rels).
Proof.
  intros H. unfold frame_rows. apply Forall2_fmap_r.
  eapply Forall2_impl; [exact H|]. by intros o r [? ?].
Qed.

(** C3, as the code has it.  For the release objects of a listing whose
    timestamp fields are missing, empty, or timestamps YYYY-MM-DDTHH:MM:SSZ
    of a calendar date and a time of day with seconds up to 59, the loop of
    [listReleases] raises nothing and builds, object by object, records
    whose [created_at] and [published_at] are the date parts of the
    timestamps, [None] for a missing or an empty field; when every object
    has an id and the table library accepts the records, the call returns
    and the rows of the snapshot carry these dates. *)
Theorem listReleases_dates (objs : list described) :
  Forall dated objs ->
  exists rels,
    mapM release_of (map object_of objs) = inr rels /\
    Forall2 dates_of objs rels /\
    forall (per_page page : option Z) (st : state) (resp : Response),
      releases_truthy (releases (self st)) = false ->
      net (length (requests_of (trace st)))
          (listing_request (with_headers per_page page st)) = Reply resp ->
      is_http_error resp = false ->
      body_json resp = Some (JArr (map object_of objs)) ->
      objs <> [] ->
      Forall (fun o => is_Some (assoc "id" o.1.1)) objs ->
      frame_error dt rels = None ->
      fst (listReleases net dt per_page page st) = inr tt /\
      exists rows,
        releases (self (snd (listReleases net dt per_page page st)))
        = Frame rows /\
        Forall2 dates_of objs rows.
Proof.
  intros Hd. destruct (mapM_release_of_dates objs Hd) as (rels & Hm & H2).
  exists rels. split; [done|]. split; [done|].
  intros per_page page st resp Hf Hnet Herr Hbody Hne Hids Hfr.
  destruct (mapM_subscript_id objs Hids) as (ids & Hi).
  rewrite (listReleases_miss net dt _ _ _ Hf). cbn zeta.
  rewrite Hnet, Herr, Hbody. unfold listing_rows. cbn [py_iter].
  rewrite Hm, Hi.
  pose proof (frame_rows_dates objs rels H2) as Hrows.
  destruct H2 as [|o r objs' rels' _ _]; [done|].
  unfold dt_Frame. rewrite Hfr.
  unfold __print__releases, bindM, get_self, set_releases, emit.
  cbn [fst snd self releases logged frame_rows map].
  split; [done|]. eexists. split; [reflexivity|]. exact Hrows.
Qed.

End Listing.

Lemma listReleases_dates_witness :
  exists rels,
    mapM release_of (map object_of demo_described) = inr rels /\
    Forall2 dates_of demo_described rels /\
    fst (listReleases demo_net dt_plain (Some 30) (Some 1) demo_client)
    = inr tt /\
    exists rows,
      releases (self (snd (listReleases demo_net dt_plain (Some 30) (Some 1)
                             demo_client)))
      = Frame rows /\
      Forall2 dates_of demo_described rows.
Proof.
  destruct (listReleases_dates demo_net dt_plain demo_described)
    as (rels & Hm & Hd & Hl).
  - repeat constructor; cbn; lia.
  - exists rels. split; [exact Hm|]. split; [exact Hd|].
    apply (Hl (Some 30) (Some 1) demo_client
              (ok_listing (JArr [demo_v2; demo_v1]))); try reflexivity.
    + discriminate.
    + repeat constructor; eexists; reflexivity.
Defined.

(** C3 as stated fails: ISO-8601 UTC timestamps that are not of the one
    shape of the pattern -- the leap second that ended 2016, a fraction of
    a second -- raise [ValueError], and the listing they are in fails. *)
Lemma listReleases_dates_other_timestamps :
  __format__date (JStr "2016-12-31T23:59:60Z") = inl ValueError /\
  __format__date (JStr "2021-09-10T14:23:00.5Z") = inl ValueError /\
  fst (listReleases net_leap_second dt_plain (Some 30) (Some 1) demo_client)
  = inl ValueError.
Proof. repeat split; reflexivity. Qed.

(* ------------------------------------------------------------------------- *)
(** ** Failed and empty listings                                             *)
(* ------------------------------------------------------------------------- *)

Section Failures.
Variable net : nat -> Request -> Outcome.
Variable dt : datatable.

(** C5, as the code has it.  When the listing request is answered with a
    status from 400 to 599, [listReleases] raises [SystemError] around the
    [HTTPError]; when the transport itself fails, the exception of the
    transport library comes out as it is.  Either way one request was
    sent, the snapshot is what it was (empty), and the next call of
    [listReleases] sends the request again. *)
Theorem listReleases_failure (per_page page : option Z) (st : state)
    (o : Outcome) :
  releases_truthy (releases (self st)) = false ->
  net (length (requests_of (trace st)))
      (listing_request (with_headers per_page page st)) = o ->
  (o = Raises \/
   exists resp, o = Reply resp /\ 400 <= status_code resp < 600) ->
  let out := listReleases net dt per_page page st in
  fst out = inl (match o with
                 | Raises => RequestException
                 | Reply resp => SystemError (HTTPError (status_code resp))
                 end) /\
  releases (self (snd out)) = releases (self st) /\
  requests_of (trace (snd out))
  = requests_of (trace st) ++ [listing_request (with_headers per_page page st)]
  /\
  forall per_page' page',
    requests_of (trace (snd (listReleases net dt per_page' page' (snd out))))
    = requests_of (trace (snd out))
      ++ [listing_request (with_headers per_page' page' (snd out))].
Proof.
  intros Hf Hnet Ho out.
  assert (Hout : out
                 = (inl (match o with
                         | Raises => RequestException
                         | Reply resp =>
                             SystemError (HTTPError (status_code resp))
                         end),
                    sent (listing_request (with_headers per_page page st))
                      (with_headers per_page page st))).
  { subst out. rewrite (listReleases_miss net dt _ _ _ Hf). cbn zeta.
    rewrite Hnet. destruct Ho as [-> | (resp & -> & Hlo & Hhi)]; [done|].
    unfold is_http_error.
    by rewrite (proj2 (Z.leb_le _ _) Hlo), (proj2 (Z.ltb_lt _ _) Hhi). }
  destruct (with_headers_frame per_page page st) as [Hs Ht].
  assert (Hrel : releases (self (snd out)) = releases (self st)).
  { rewrite Hout. cbn. by rewrite Hs. }
  rewrite Hout at 1. cbn [fst]. split; [done|]. split; [done|]. split.
  { rewrite Hout. cbn [snd]. by rewrite requests_of_sent, Ht. }
  intros per_page' page'.
  apply (listReleases_miss_state net dt per_page' page' (snd out)).
  by rewrite Hrel.
Qed.

(** C9, as the code has it.  After a successful listing response with zero
    releases the stored snapshot is the frame of the empty list, which the
    test [if not self.releases] takes for empty like the initial state:
    the next call of [listReleases] sends the request again. *)
Theorem listReleases_empty_listing (per_page page : option Z) (st : state)
    (resp : Response) :
  releases_truthy (releases (self st)) = false ->
  net (length (requests_of (trace st)))
      (listing_request (with_headers per_page page st)) = Reply resp ->
  is_http_error resp = false ->
  body_json resp = Some (JArr []) ->
  let st' := snd (listReleases net dt per_page page st) in
  releases (self st') = Frame [] /\
  releases_truthy (releases (self st')) = false /\
  forall per_page' page',
    requests_of (trace (snd (listReleases net dt per_page' page' st')))
    = requests_of (trace st')
      ++ [listing_request (with_headers per_page' page' st')].
Proof.
  intros Hf Hnet Herr Hbody st'.
  assert (Hrel : releases (self st') = Frame []).
  { subst st'. rewrite (listReleases_miss net dt _ _ _ Hf). cbn zeta.
    by rewrite Hnet, Herr, Hbody. }
  split; [done|]. split; [by rewrite Hrel|].
  intros per_page' page'.
  apply (listReleases_miss_state net dt per_page' page' st').
  by rewrite Hrel.
Qed.

End Failures.

Lemma listReleases_failure_witness :
  let out := listReleases net_not_found dt_plain (Some 30) (Some 1) demo_client in
  fst out = inl (SystemError (HTTPError 404)) /\
  releases (self (snd out)) = PyList /\
  length (requests_of (trace (snd out))) = 1%nat /\
  length (requests_of
            (trace (snd (listReleases net_not_found dt_plain None None (snd out)))))
  = 2%nat.
Proof.
  destruct (listReleases_failure net_not_found dt_plain (Some 30) (Some 1) demo_client
              (net_not_found 0 (listing_request
                                  (with_headers (Some 30) (Some 1) demo_client))))
    as (Hres & Hrel & Hreq & Hretry).
  - reflexivity.
  - reflexivity.
  - right. eexists. split; [reflexivity|]. cbn. lia.
  - cbn zeta. split; [exact Hres|]. split; [exact Hrel|].
    split; [by rewrite Hreq|]. by rewrite Hretry, Hreq.
Defined.

(** C5 as stated fails: a network failure comes out as the exception of the
    transport library, not wrapped; and a status outside 200-299 that is not
    an error status (300) raises nothing and lets the snapshot be stored. *)
Lemma listReleases_failure_not_wrapped :
  fst (listReleases net_down dt_plain (Some 30) (Some 1) demo_client)
  = inl RequestException /\
  ~ (exists e, fst (listReleases net_down dt_plain (Some 30) (Some 1) demo_client)
               = inl (SystemError e)) /\
  fst (listReleases net_multiple_choices dt_plain (Some 30) (Some 1) demo_client) = inr tt /\
  releases_truthy
    (releases (self (snd (listReleases net_multiple_choices dt_plain (Some 30) (Some 1)
                            demo_client)))) = true.
Proof.
  split; [reflexivity|]. split; [|split; reflexivity].
  intros [e He]. discriminate He.
Qed.

Lemma listReleases_empty_listing_witness :
  let st' := snd (listReleases net_no_release dt_plain (Some 30) (Some 1) demo_client) in
  releases (self st') = Frame [] /\
  releases_truthy (releases (self st')) = false /\
  length (requests_of (trace st')) = 1%nat /\
  length (requests_of
            (trace (snd (listReleases net_no_release dt_plain (Some 30) (Some 1) st'))))
  = 2%nat.
Proof.
  destruct (listReleases_empty_listing net_no_release dt_plain (Some 30) (Some 1)
              demo_client (ok_listing (JArr [])))
    as (Hrel & Hfalsy & Hretry); try reflexivity.
  cbn zeta. split; [exact Hrel|]. split; [exact Hfalsy|].
  split; [reflexivity|]. by rewrite Hretry.
Defined.

(** C9 as stated fails: after a successful listing of zero releases the
    second call sends a second request. *)
Lemma listReleases_empty_listing_refetched :
  length (requests_of
            (trace (run_calls net_no_release same_path dt_plain
                      [ListReleases (Some 30) (Some 1);
                       ListReleases (Some 30) (Some 1)]
                      demo_client))) = 2%nat.
Proof. reflexivity. Qed.

(** C4 fails on a release object without "id": the record is built with
    [None] for the id, but the count printed next subscripts ['id'], raises
    [KeyError], and no snapshot is stored. *)
Theorem listReleases_missing_id (dt : datatable) :
  mapM release_of [JObj [("name", JStr "First"); ("tag_name", JStr "v1");
                         ("tarball_url",
                          JStr "https://api.github.com/tarball/v1")]]
  = inr [mkRelease JNull (JStr "First") (JStr "v1") None None
           (JStr "https://api.github.com/tarball/v1") JNull] /\
  fst (listReleases net_no_id dt (Some 30) (Some 1) demo_client)
  = inl KeyError /\
  releases (self (snd (listReleases net_no_id dt (Some 30) (Some 1)
                         demo_client)))
  = PyList.
Proof. repeat split; reflexivity. Qed.

(** C8 fails: [per_page] and [page] travel as header fields of the request,
    whose query parameters are empty. *)
Theorem listReleases_pagination_in_headers (net : nat -> Request -> Outcome)
    (dt : datatable) :
  requests_of (trace (snd (listReleases net dt (Some 5) (Some 2) demo_client)))
  = [mkRequest "https://api.github.com/repos/octocat/hello/releases"
       (<["page" := "2"]> (<["per_page" := "5"]> accept_header)) ∅ false].
Proof.
  rewrite (proj1 (proj2 (proj2 (listReleases_miss_state net dt (Some 5) (Some 2)
                                  demo_client eq_refl)))).
  reflexivity.
Qed.

(* ------------------------------------------------------------------------- *)
(** ** The archive download                                                  *)
(* ------------------------------------------------------------------------- *)

Section Download.
Variable net : nat -> Request -> Outcome.
Variable abspath : string -> string.
Variable dt : datatable.



End Download.


(** C7 fails on an archive request answered 404 with an error body: the
    body is no gzip tar stream, so [tarfile.open], which comes before the
    status check, raises [ReadError]; the status is never looked at and no
    [SystemError] is raised.  [listReleases], which checks the status first,
    raises [SystemError] on the same answer. *)
Theorem downloadRelease_not_found_is_ReadError :
  downloadRelease net_archive_gone same_path dt_plain "out" "latest"
    demo_populated
  = (inl ReadError,
     logged EvTarOpen
       (sent (archive_request "https://api.github.com/tarball/v2"
                demo_populated)
          (logged (EvPrintDownloading (JStr "v2")
                     (JStr "https://api.github.com/tarball/v2"))
             demo_populated))) /\
  ~ (exists e, fst (downloadRelease net_archive_gone same_path dt_plain "out"
                      "latest" demo_populated) = inl (SystemError e)) /\
  fst (listReleases net_not_found dt_plain (Some 30) (Some 1) demo_client)
  = inl (SystemError (HTTPError 404)).
Proof.
  split; [reflexivity|]. split; [|reflexivity].
  intros [e He]. discriminate He.
Qed.

(* ------------------------------------------------------------------------- *)
(** ** The shared header dictionary                                          *)
(* ------------------------------------------------------------------------- *)

Section Headers.
Variable net : nat -> Request -> Outcome.
Variable abspath : string -> string.
Variable dt : datatable.

Lemma paginated_insert (k v : string) (d : gmap string string) :
  k <> "Accept" -> paginated d -> paginated (<[k := v]> d).
Proof.
  intros Hk (Ha & Hpp & Hp). repeat split.
  - by rewrite lookup_insert_ne.
  - destruct (decide (k = "per_page")) as [->|Hne].
    + rewrite lookup_insert_eq. by eexists.
    + by rewrite lookup_insert_ne.
  - destruct (decide (k = "page")) as [->|Hne].
    + rewrite lookup_insert_eq. by eexists.
    + by rewrite lookup_insert_ne.
Qed.

Lemma default_header_set (l : loc) (k v : string) (st : state) :
  l = gh_default_header (self st) ->
  default_header (snd (dict_set l k v st)) = <[k := v]> (default_header st).
Proof.
  intros ->. unfold default_header, dict_set. cbn.
  by rewrite lookup_insert_eq.
Qed.

Lemma with_headers_paginated (per_page page : option Z) (st : state) :
  paginated (default_header st) ->
  paginated (default_header (with_headers per_page page st)).
Proof.
  intros Hp. unfold with_headers.
  destruct (truthy_int per_page), (truthy_int page);
    rewrite ?default_header_set by done;
    repeat (apply paginated_insert; [done|]); done.
Qed.

(** Every call keeps the two fields in the dictionary and sends them with
    each of its requests. *)
Lemma do_call_paginated (c : call) (st : state) :
  paginated (default_header st) ->
  paginated (default_header (snd (do_call net abspath dt c st))) /\
  exists new,
    requests_of (trace (snd (do_call net abspath dt c st)))
    = requests_of (trace st) ++ new /\
    Forall (fun r => paginated (req_headers r)) new.
Proof.
  intros Hp. destruct c as [per_page page|outDir tagName]; cbn [do_call].
  - destruct (releases_truthy (releases (self st))) eqn:Ht.
    + destruct (listReleases_hit net dt per_page page st Ht) as (rows & _ & ->).
      split; [done|]. exists []. split; [|done].
      cbn. rewrite requests_of_app. cbn. by rewrite !app_nil_r.
    + destruct (listReleases_miss_state net dt per_page page st Ht)
        as (Hh & Hl & Hreq & _).
      pose proof (with_headers_paginated per_page page st Hp) as Hp'.
      destruct (with_headers_frame per_page page st) as [Hs _].
      split.
      * unfold default_header in *. by rewrite Hh, Hl, <- Hs.
      * eexists. split; [exact Hreq|].
        constructor; [exact Hp'|constructor].
  - destruct (downloadRelease_frame net abspath dt outDir tagName st)
      as (Hs & Hh & [Hreq | [u Hreq]]).
    + split; [unfold default_header; by rewrite Hs, Hh|].
      exists []. by rewrite app_nil_r.
    + split; [unfold default_header; by rewrite Hs, Hh|].
      eexists. split; [exact Hreq|]. constructor; [exact Hp|constructor].
Qed.

Lemma run_calls_paginated (cs : list call) (st : state) :
  paginated (default_header st) ->
  exists new,
    requests_of (trace (run_calls net abspath dt cs st))
    = requests_of (trace st) ++ new /\
    Forall (fun r => paginated (req_headers r)) new.
Proof.
  revert st. induction cs as [|c cs IH]; intros st Hp.
  - exists []. by rewrite app_nil_r.
  - destruct (do_call_paginated c st Hp) as (Hp' & new1 & Hr1 & Hall1).
    destruct (IH _ Hp') as (new2 & Hr2 & Hall2).
    exists (new1 ++ new2). cbn [run_calls].
    rewrite Hr2, Hr1, app_assoc. split; [done|]. by apply Forall_app.
Qed.

(** On a populated snapshot nothing writes to the dictionary any more:
    every later request carries it as it is. *)
Lemma run_calls_cached_headers (cs : list call) (st : state) :
  releases_truthy (releases (self st)) = true ->
  exists new,
    requests_of (trace (run_calls net abspath dt cs st))
    = requests_of (trace st) ++ new /\
    Forall (fun r => req_headers r = default_header st) new.
Proof.
  revert st. induction cs as [|c cs IH]; intros st Ht.
  - exists []. by rewrite app_nil_r.
  - destruct (do_call_cached net abspath dt c st Ht) as [Hs Hh].
    assert (Ht' : releases_truthy
                    (releases (self (snd (do_call net abspath dt c st)))) = true)
      by by rewrite Hs.
    destruct (IH _ Ht') as (new2 & Hr2 & Hall2).
    assert (Hd : default_header (snd (do_call net abspath dt c st))
                 = default_header st)
      by (unfold default_header; by rewrite Hs, Hh).
    rewrite Hd in Hall2. cbn [run_calls]. rewrite Hr2.
    destruct c as [per_page page|outDir tagName]; cbn [do_call].
    + destruct (listReleases_hit net dt per_page page st Ht) as (rows & _ & ->).
      exists new2. split; [|done]. cbn [snd trace].
      rewrite requests_of_app. cbn. by rewrite app_nil_r.
    + destruct (downloadRelease_frame net abspath dt outDir tagName st)
        as (_ & _ & [Hreq | [u Hreq]]); rewrite Hreq.
      * by exists new2.
      * exists (archive_request u st :: new2).
        rewrite <- app_assoc. split; [done|]. by constructor.
Qed.

(** C10, as the code has it.  The first call of [listReleases], when
    [per_page] and [page] are true values (not 0, as the defaults 30 and 1
    are), writes 'per_page' and 'page' into the dictionary
    [gh_default_header] points to -- the same object as before the call,
    which held 'Accept' alone.  The entries stay: every request of every
    later call on the instance, the archive request of [downloadRelease]
    included, carries 'per_page' and 'page' besides 'Accept'; once the
    snapshot is populated it carries exactly the entries the first call
    left. *)
Theorem default_header_mutated_in_place (owner repo : string)
    (h : gmap loc (gmap string string)) (t : list event)
    (per_page page : Z) (cs : list call) :
  per_page <> 0 -> page <> 0 ->
  let st0 := __init__ owner repo h t in
  let st1 := snd (listReleases net dt (Some per_page) (Some page) st0) in
  let d := <["page" := pretty page]>
             (<["per_page" := pretty per_page]> accept_header) in
  heap st0 !! gh_default_header (self st0) = Some accept_header /\
  gh_default_header (self st1) = gh_default_header (self st0) /\
  heap st1 !! gh_default_header (self st1) = Some d /\
  (exists r, requests_of (trace st1) = requests_of t ++ [r] /\
             req_headers r = d) /\
  (exists new,
     requests_of (trace (run_calls net abspath dt cs st1))
     = requests_of (trace st1) ++ new /\
     Forall (fun r => paginated (req_headers r)) new /\
     (releases_truthy (releases (self st1)) = true ->
      Forall (fun r => req_headers r = d) new)).
Proof.
  intros Hpp Hp st0 st1 d.
  assert (H0 : heap st0 !! gh_default_header (self st0) = Some accept_header)
    by apply lookup_insert_eq.
  assert (Hf : releases_truthy (releases (self st0)) = false) by done.
  assert (Htr : trace st0 = t) by done.
  clearbody st0.
  destruct (listReleases_miss_state net dt (Some per_page) (Some page) st0 Hf)
    as (Hh & Hl & Hreq & _). fold st1 in Hh, Hl, Hreq.
  rewrite Htr in Hreq.
  assert (Hw : heap (with_headers (Some per_page) (Some page) st0)
               !! gh_default_header (self st0) = Some d).
  { unfold with_headers, truthy_int, truthy.
    rewrite (proj2 (Z.eqb_neq _ _) Hpp), (proj2 (Z.eqb_neq _ _) Hp).
    cbn [negb]. unfold dict_set. cbn [snd heap self str_int].
    rewrite !lookup_insert_eq. cbn [default]. by rewrite H0. }
  assert (H1 : heap st1 !! gh_default_header (self st1) = Some d)
    by by rewrite Hh, Hl.
  assert (Hd1 : default_header st1 = d)
    by (unfold default_header; by rewrite H1).
  assert (Hrq : req_headers
                  (listing_request
                     (with_headers (Some per_page) (Some page) st0)) = d).
  { unfold listing_request. cbn [req_headers].
    destruct (with_headers_frame (Some per_page) (Some page) st0) as [-> _].
    by rewrite Hw. }
  assert (Hpd : paginated d).
  { subst d. unfold paginated, accept_header. split; [|split].
    - rewrite !lookup_insert_ne by done. apply lookup_singleton_eq.
    - rewrite lookup_insert_ne by done. rewrite lookup_insert_eq.
      by eexists.
    - rewrite lookup_insert_eq. by eexists. }
  split; [done|]. split; [done|]. split; [done|]. split.
  { eexists. split; [exact Hreq|]. exact Hrq. }
  destruct (run_calls_paginated cs st1) as (new & Hnew & Hall).
  { by rewrite Hd1. }
  exists new. split; [done|]. split; [done|]. intros Ht.
  destruct (run_calls_cached_headers cs st1 Ht) as (new' & Hnew' & Hall').
  rewrite Hnew in Hnew'. apply app_inv_head in Hnew'. subst new'.
  by rewrite Hd1 in Hall'.
Qed.

End Headers.

Lemma default_header_mutated_in_place_witness :
  let st0 := __init__ "octocat" "hello" ∅ [] in
  let st1 := snd (listReleases demo_net dt_plain (Some 30) (Some 1) st0) in
  let d := <["page" := "1"]> (<["per_page" := "30"]> accept_header) in
  heap st1 !! gh_default_header (self st0) = Some d /\
  requests_of (trace (run_calls demo_net same_path dt_plain
                        [DownloadRelease "out" "latest"] st1))
  = requests_of (trace st1)
    ++ [mkRequest "https://api.github.com/tarball/v2" d ∅ true] /\
  paginated d.
Proof.
  destruct (default_header_mutated_in_place demo_net same_path dt_plain
              "octocat" "hello" ∅ [] 30 1 [DownloadRelease "out" "latest"])
    as (_ & Hsame & Hheap & _ & new & Hnew & Hpag & _); [lia..|].
  cbn zeta. split; [rewrite <- Hsame; exact Hheap|].
  assert (Hc : requests_of
                 (trace (run_calls demo_net same_path dt_plain
                           [DownloadRelease "out" "latest"]
                           (snd (listReleases demo_net dt_plain (Some 30)
                                   (Some 1)
                                   (__init__ "octocat" "hello" ∅ [])))))
               = requests_of
                   (trace (snd (listReleases demo_net dt_plain (Some 30)
                                  (Some 1)
                                  (__init__ "octocat" "hello" ∅ []))))
                 ++ [mkRequest "https://api.github.com/tarball/v2"
                       (<["page" := "1"]>
                          (<["per_page" := "30"]> accept_header)) ∅ true])
    by reflexivity.
  split; [exact Hc|].
  rewrite Hc in Hnew. apply app_inv_head in Hnew. subst new.
  exact (Forall_inv Hpag).
Defined.

(** C10 as stated fails: a first call with [per_page] 0 and [page] absent
    writes nothing; the dictionary holds 'Accept' alone afterwards, and the
    listing request and the archive request carry nothing else. *)
Lemma default_header_untouched_by_false_values :
  let st1 := snd (listReleases demo_net dt_plain (Some 0) None demo_client) in
  heap st1 !! gh_default_header (self st1) = Some accept_header /\
  requests_of (trace (run_calls demo_net same_path dt_plain
                        [DownloadRelease "out" "latest"] st1))
  = [mkRequest "https://api.github.com/repos/octocat/hello/releases"
       accept_header ∅ false;
     mkRequest "https://api.github.com/tarball/v2" accept_header ∅ true].
Proof. split; reflexivity. Qed.


(* ========================================================================= *)
(** * Further properties of the code                                         *)
(* ========================================================================= *)

(* ------------------------------------------------------------------------- *)
(** ** [__format__date]: what comes out, and what is refused                 *)
(* ------------------------------------------------------------------------- *)

Section DateFacts.
Import Strptime.

Lemma field_S_leap {B : Type} (k : Z -> re B) (rest : string) (n : Z) :
  0 <= n <= 61 ->
  bind re_S (fun v => skip (lit "Z") (k v))
    (two_digits n +:+ String "Z" rest) = k n rest.
Proof.
  intros Hn.
  assert (exists m : nat, n = Z.of_nat m /\ (m < 62)%nat) as (m & -> & Hm)
    by (exists (Z.to_nat n); lia).
  repeat first
    [ lia
    | destruct m as [|m];
      [vm_compute; repeat (etransitivity; [apply app_nil_r|]); reflexivity|] ].
Qed.

Lemma format_regex_in_pattern (y mo d h mi s : Z) :
  in_pattern (Stamp y mo d h mi s) ->
  format_regex (timestamp y mo d h mi s)
  = [((y, mo, d, h, mi, s), EmptyString)].
Proof.
  intros (Hy & Hmo & Hd & Hh & Hmi & Hs). unfold format_regex, timestamp.
  rewrite field_Y by lia. rewrite field_m by lia.
  rewrite field_d by lia. rewrite field_H by lia.
  rewrite field_M by lia. rewrite field_S_leap by lia. reflexivity.
Qed.

Lemma datetime_ok_valid (y mo d h mi s : Z) :
  datetime_ok y mo d h mi s = true <-> valid_stamp (Stamp y mo d h mi s).
Proof.
  unfold datetime_ok. cbn [valid_stamp].
  rewrite !andb_true_iff, !Z.leb_le. tauto.
Qed.

(** X1.  A date [__format__date] returns is a date of the calendar: year 1
    to 9999, month 1 to 12, and a day the month has in that year.  Whatever
    the value, the only exception it raises is [ValueError]. *)
Theorem format_date_returns_calendar_dates (v : json) :
  match __format__date v with
  | inr (Some d) => valid_date d /\ truthy v = true
  | inr None => truthy v = false
  | inl e => e = ValueError /\ truthy v = true
  end.
Proof.
  unfold __format__date. destruct (truthy v) eqn:Ht; cbn [negb]; [|done].
  destruct v as [|b|z|s|l|kv]; try done.
  unfold strptime_date.
  destruct (format_regex s) as [|[[[[[[y mo] d] h] mi] sec] rest] ms]; [done|].
  destruct (negb (String.eqb rest EmptyString)); [done|].
  destruct (datetime_ok y mo d h mi sec) eqn:Hok; [|done].
  split; [|done]. apply datetime_ok_valid in Hok.
  destruct Hok as (Hy & Hmo & Hd & _). unfold valid_date.
  cbn [year month day]. tauto.
Qed.

(** X2.  A timestamp that has the shape of the pattern but names no moment
    [datetime] accepts -- year 0000, a day the month does not have, second
    60 or 61 -- is refused with [ValueError]; every other timestamp of that
    shape gives its date. *)
Theorem format_date_refuses_impossible_moments (y mo d h mi s : Z) :
  in_pattern (Stamp y mo d h mi s) ->
  (valid_stamp (Stamp y mo d h mi s) ->
   __format__date (JStr (timestamp y mo d h mi s)) = inr (Some (Date y mo d)))
  /\
  (~ valid_stamp (Stamp y mo d h mi s) ->
   __format__date (JStr (timestamp y mo d h mi s)) = inl ValueError).
Proof.
  intros Hp. split.
  - intros Hv. exact (format_date_stamp (Stamp y mo d h mi s) Hv).
  - intros Hnv. unfold __format__date.
    assert (Ht : truthy (JStr (timestamp y mo d h mi s)) = true) by done.
    rewrite Ht. cbn [negb]. unfold strptime_date.
    rewrite (format_regex_in_pattern _ _ _ _ _ _ Hp). cbn [String.eqb negb].
    destruct (datetime_ok y mo d h mi s) eqn:Hok; [|done].
    apply datetime_ok_valid in Hok. contradiction.
Qed.

End DateFacts.

Lemma format_date_refuses_impossible_moments_witness :
  __format__date (JStr (timestamp 2021 9 10 14 23 0))
  = inr (Some (Date 2021 9 10)) /\
  __format__date (JStr (timestamp 2021 2 30 0 0 0)) = inl ValueError /\
  __format__date (JStr (timestamp 2016 12 31 23 59 60)) = inl ValueError.
Proof.
  split; [|split].
  - apply (format_date_refuses_impossible_moments 2021 9 10 14 23 0);
      cbn; lia.
  - apply (format_date_refuses_impossible_moments 2021 2 30 0 0 0).
    + cbn; lia.
    + intros (_ & _ & [_ Hd] & _). exact (Hd eq_refl).
  - apply (format_date_refuses_impossible_moments 2016 12 31 23 59 60).
    + cbn; lia.
    + intros (_ & _ & _ & _ & _ & [_ Hs]). exact (Hs eq_refl).
Defined.

(* ------------------------------------------------------------------------- *)
(** ** [listReleases]: how a call ends                                       *)
(* ------------------------------------------------------------------------- *)

Section ListingEnds.
Variable net : nat -> Request -> Outcome.
Variable dt : datatable.

Lemma mapM_Forall2 {A B} (f : A -> result B) (l : list A) (bs : list B) :
  mapM f l = inr bs -> Forall2 (fun a b => f a = inr b) l bs.
Proof.
  revert bs. induction l as [|a l IH]; intros bs; cbn [mapM].
  - intros [= <-]. constructor.
  - destruct (f a) as [e|b] eqn:Hfa; [discriminate|].
    destruct (mapM f l) as [e|bs'] eqn:Hm; [discriminate|].
    intros [= <-]. constructor; [done|]. by apply IH.
Qed.

Lemma listing_rows_inv (data : json) (rels : list ReleaseRecord) (n : nat) :
  listing_rows data = inr (rels, n) ->
  exists ds, py_iter data = inr ds /\
             Forall2 (fun d r => release_of d = inr r) ds rels /\
             n = length ds.
Proof.
  unfold listing_rows. destruct (py_iter data) as [e|ds]; [discriminate|].
  destruct (mapM release_of ds) as [e|rels'] eqn:Hr; [discriminate|].
  destruct (mapM subscript_id ds) as [e|ids] eqn:Hi; [discriminate|].
  intros [= <- <-]. exists ds. split; [done|].
  split; [by apply mapM_Forall2|].
  apply mapM_Forall2 in Hi. by rewrite (Forall2_length _ _ _ Hi).
Qed.

Lemma dt_Frame_inv (rels : list ReleaseRecord) (fr : releases_t) :
  dt_Frame dt rels = inr fr ->
  (rels = [] /\ fr = Frame []) \/
  (exists r rels', rels = r :: rels' /\ frame_error dt rels = None /\
                   fr = Frame (store_row dt rels r
                               :: map (store_row dt rels) rels')).
Proof.
  unfold dt_Frame. destruct rels as [|r rels']; [intros [= <-]; by left|].
  destruct (frame_error dt (r :: rels')) eqn:He; [discriminate|].
  intros [= <-]. right. by exists r, rels'.
Qed.

(** X3.  When [listReleases] returns without an exception the snapshot is
    populated, whatever state the call started from. *)
Theorem listReleases_returns_populated (per_page page : option Z)
    (st : state) :
  fst (listReleases net dt per_page page st) = inr tt ->
  releases_truthy
    (releases (self (snd (listReleases net dt per_page page st)))) = true.
Proof.
  destruct (releases_truthy (releases (self st))) eqn:Ht.
  - destruct (listReleases_hit net dt per_page page st Ht) as (rows & _ & ->).
    by intros _.
  - rewrite (listReleases_miss net dt _ _ _ Ht). cbn zeta.
    destruct (net _ _) as [|resp]; [discriminate|].
    destruct (is_http_error resp); [discriminate|].
    destruct (body_json resp) as [data|]; [|discriminate].
    destruct (listing_rows data) as [e|[rels n]]; [discriminate|].
    destruct (dt_Frame dt rels) as [e|fr] eqn:Hfr; [discriminate|].
    unfold __print__releases, bindM, get_self, set_releases, emit, raise.
    cbn [fst snd self releases].
    destruct (dt_Frame_inv _ _ Hfr) as [[_ ->] | (r & rels' & _ & _ & ->)];
      [discriminate|done].
Qed.

(** X4.  A fetching call that returns without an exception sent one request
    and got a response without error status whose document iterates over
    objects; every one of them was converted, in the order of the response,
    into the dictionary at the same position; their number was printed; the
    table library accepted the dictionaries, the rows it keeps of them were
    stored as the snapshot, and the table of these rows was printed. *)
Theorem listReleases_fetch_returns (per_page page : option Z) (st : state) :
  releases_truthy (releases (self st)) = false ->
  fst (listReleases net dt per_page page st) = inr tt ->
  let req := listing_request (with_headers per_page page st) in
  let st' := snd (listReleases net dt per_page page st) in
  exists resp data ds rels,
    net (length (requests_of (trace st))) req = Reply resp /\
    is_http_error resp = false /\
    body_json resp = Some data /\
    py_iter data = inr ds /\
    Forall2 (fun d r => release_of d = inr r) ds rels /\
    rels <> [] /\
    frame_error dt rels = None /\
    releases (self st') = Frame (frame_rows dt rels) /\
    trace st' = trace st ++ [EvGet req; EvPrintFound (length ds);
                             EvPrintReleases
                               (printed_columns (frame_rows dt rels))].
Proof.
  intros Hf. cbn zeta. rewrite (listReleases_miss net dt _ _ _ Hf). cbn zeta.
  destruct (with_headers_frame per_page page st) as [_ Htr].
  destruct (net _ _) as [|resp]; [discriminate|].
  destruct (is_http_error resp) eqn:Herr; [discriminate|].
  destruct (body_json resp) as [data|] eqn:Hbody; [|discriminate].
  destruct (listing_rows data) as [e|[rels n]] eqn:Hrows; [discriminate|].
  destruct (listing_rows_inv _ _ _ Hrows) as (ds & Hiter & Hall & ->).
  destruct (dt_Frame dt rels) as [e|fr] eqn:Hfr; [discriminate|].
  unfold __print__releases, bindM, get_self, set_releases, emit, raise.
  cbn [fst snd self releases heap trace sent logged].
  destruct (dt_Frame_inv _ _ Hfr)
    as [[_ ->] | (r & rels' & -> & Hok & ->)]; [discriminate|].
  intros _. exists resp, data, ds, (r :: rels'). repeat split; try done.
  cbn [fst snd self releases heap trace]. rewrite Htr.
  by rewrite <- !app_assoc.
Qed.

(** X5.  When [listReleases] raises, the snapshot is what it was before the
    call -- with one exception: a listing of zero releases stores the empty
    frame and then raises [KeyError] when it prints the table.  On a
    populated snapshot the call never raises. *)
Theorem listReleases_raises_keeps_snapshot (per_page page : option Z)
    (st : state) (e : exn) :
  fst (listReleases net dt per_page page st) = inl e ->
  releases_truthy (releases (self st)) = false /\
  (releases (self (snd (listReleases net dt per_page page st)))
   = releases (self st) \/
   e = KeyError /\
   releases (self (snd (listReleases net dt per_page page st))) = Frame []).
Proof.
  destruct (releases_truthy (releases (self st))) eqn:Ht.
  { destruct (listReleases_hit net dt per_page page st Ht) as (rows & _ & ->).
    discriminate. }
  intros He. split; [done|]. revert He.
  rewrite (listReleases_miss net dt _ _ _ Ht). cbn zeta.
  destruct (with_headers_frame per_page page st) as [Hs _].
  assert (Hkeep : releases
                    (self (sent (listing_request
                                   (with_headers per_page page st))
                             (with_headers per_page page st)))
                  = releases (self st)) by (cbn; by rewrite Hs).
  destruct (net _ _) as [|resp]; [by left|].
  destruct (is_http_error resp); [by left|].
  destruct (body_json resp) as [data|]; [|by left].
  destruct (listing_rows data) as [e'|[rels n]]; [by left|].
  destruct (dt_Frame dt rels) as [e'|fr] eqn:Hfr; [by left|].
  unfold __print__releases, bindM, get_self, set_releases, emit, raise.
  cbn [fst snd self releases].
  destruct (dt_Frame_inv _ _ Hfr) as [[_ ->] | (r & rels' & _ & _ & ->)];
    [|discriminate].
  intros [= <-]. by right.
Qed.

(** X6.  A response without error status whose body is not a JSON array
    stores nothing: no JSON at all raises [JSONDecodeError]; null, a boolean
    or a number raises [TypeError]; a non-empty object or string raises
    [AttributeError], because iterating it yields strings, which have no
    [get]. *)
Theorem listReleases_body_not_an_array (per_page page : option Z)
    (st : state) (resp : Response) (e : exn) :
  releases_truthy (releases (self st)) = false ->
  net (length (requests_of (trace st)))
      (listing_request (with_headers per_page page st)) = Reply resp ->
  is_http_error resp = false ->
  body_error (body_json resp) = Some e ->
  fst (listReleases net dt per_page page st) = inl e /\
  releases (self (snd (listReleases net dt per_page page st)))
  = releases (self st).
Proof.
  intros Hf Hnet Herr Hbe.
  rewrite (listReleases_miss net dt _ _ _ Hf). cbn zeta. rewrite Hnet, Herr.
  destruct (with_headers_frame per_page page st) as [Hs _].
  assert (Hkeep : releases
                    (self (sent (listing_request
                                   (with_headers per_page page st))
                             (with_headers per_page page st)))
                  = releases (self st)) by (cbn; by rewrite Hs).
  destruct (body_json resp) as [[|b|z|s|l|kv]|]; cbn in Hbe;
    try discriminate.
  - by injection Hbe as <-.
  - by injection Hbe as <-.
  - by injection Hbe as <-.
  - destruct s as [|c s]; [discriminate|]. by injection Hbe as <-.
  - destruct kv as [|[k v] kv]; [discriminate|]. by injection Hbe as <-.
  - by injection Hbe as <-.
Qed.

End ListingEnds.

Lemma listReleases_returns_populated_witness :
  releases_truthy
    (releases (self (snd (listReleases demo_net dt_plain (Some 30) (Some 1)
                            demo_client)))) = true.
Proof.
  apply (listReleases_returns_populated demo_net dt_plain (Some 30) (Some 1)
           demo_client).
  reflexivity.
Defined.

Lemma listReleases_fetch_returns_witness :
  let req := listing_request (with_headers (Some 30) (Some 1) demo_client) in
  let st' := snd (listReleases demo_net dt_plain (Some 30) (Some 1)
                    demo_client) in
  exists resp data ds rels,
    demo_net (length (requests_of (trace demo_client))) req = Reply resp /\
    is_http_error resp = false /\
    body_json resp = Some data /\
    py_iter data = inr ds /\
    Forall2 (fun d r => release_of d = inr r) ds rels /\
    rels <> [] /\
    frame_error dt_plain rels = None /\
    releases (self st') = Frame (frame_rows dt_plain rels) /\
    trace st' = trace demo_client
                ++ [EvGet req; EvPrintFound (length ds);
                    EvPrintReleases
                      (printed_columns (frame_rows dt_plain rels))].
Proof.
  apply (listReleases_fetch_returns demo_net dt_plain (Some 30) (Some 1)
           demo_client); reflexivity.
Defined.

Lemma listReleases_raises_keeps_snapshot_witness :
  releases_truthy (releases (self demo_client)) = false /\
  (releases (self (snd (listReleases net_not_found dt_plain (Some 30) (Some 1)
                          demo_client)))
   = releases (self demo_client) \/
   SystemError (HTTPError 404) = KeyError /\
   releases (self (snd (listReleases net_not_found dt_plain (Some 30) (Some 1)
                          demo_client))) = Frame []).
Proof.
  apply (listReleases_raises_keeps_snapshot net_not_found dt_plain (Some 30) (Some 1)
           demo_client (SystemError (HTTPError 404))).
  reflexivity.
Defined.

Lemma listReleases_body_not_an_array_witness :
  fst (listReleases net_message dt_plain (Some 30) (Some 1) demo_client)
  = inl AttributeError /\
  releases (self (snd (listReleases net_message dt_plain (Some 30) (Some 1)
                         demo_client)))
  = releases (self demo_client).
Proof.
  apply (listReleases_body_not_an_array net_message dt_plain (Some 30) (Some 1)
           demo_client (ok_listing (JObj [("message", JStr "Moved")])));
    reflexivity.
Defined.

(* ------------------------------------------------------------------------- *)
(** ** [downloadRelease]: what it needs and what it leaves                   *)
(* ------------------------------------------------------------------------- *)

Section DownloadEnds.
Variable net : nat -> Request -> Outcome.
Variable abspath : string -> string.
Variable dt : datatable.

Lemma py_eqb_refl (v : json) : py_eqb v v = true.
Proof.
  revert v. fix IH 1. intros [|b|z|s|l|kv]; cbn [py_eqb].
  - reflexivity.
  - by destruct b.
  - apply Z.eqb_refl.
  - apply String.eqb_refl.
  - revert l. fix IHl 1. intros [|a l]; [reflexivity|].
    rewrite (IH a). apply IHl.
  - revert kv. fix IHkv 1. intros [|[k a] kv]; [reflexivity|].
    rewrite String.eqb_refl, (IH a). apply IHkv.
Qed.

(** The requests of a download whose lookup gave a string. *)
Lemma download_resolved_requests (outDir : string) (release : json)
    (u : string) (st : state) :
  lookup_url dt release st = (inr (JStr u), st) ->
  requests_of (trace (snd (download_resolved net abspath dt outDir release st)))
  = requests_of (trace st) ++ [archive_request u st].
Proof.
  intros Hl. rewrite (download_resolved_found net abspath dt _ _ _ _ Hl).
  cbn zeta. set (st1 := logged (EvPrintDownloading release (JStr u)) st).
  assert (H1 : requests_of (trace st1) = requests_of (trace st))
    by by apply requests_of_logged.
  assert (H2 : requests_of (trace (sent (archive_request u st1) st1))
               = requests_of (trace st) ++ [archive_request u st])
    by by rewrite requests_of_sent, H1.
  destruct (net _ _) as [|resp]; [done|].
  destruct (raw resp) as [|ms [|]]; [| destruct (is_http_error resp) |];
    cbn [snd]; rewrite ?requests_of_logged by done; exact H2.
Qed.

(** X7.  Without a populated snapshot [downloadRelease] does nothing but
    raise, whatever the tag: [TypeError] on the empty list of [__init__];
    on the empty frame an empty listing leaves, [ValueError] for the tag
    "latest" (there is no row 0) and [KeyError] for any other tag (there is
    no column 'tag_name').  Nothing is printed, requested or extracted, and
    no listing is fetched on the caller's behalf. *)
Theorem downloadRelease_unpopulated (outDir tagName : string) (st : state) :
  releases_truthy (releases (self st)) = false ->
  downloadRelease net abspath dt outDir tagName st
  = (inl (match releases (self st) with
          | PyList => TypeError
          | Frame _ => if String.eqb tagName "latest" then ValueError
                       else KeyError
          end), st).
Proof.
  intros Hf. apply falsy_frame in Hf.
  unfold downloadRelease, bindM, resolve_release, get_self.
  destruct (String.eqb tagName "latest");
    destruct Hf as [Hr | Hr]; rewrite Hr; cbn;
    unfold download_resolved, bindM, lookup_url, get_self; cbn;
    by rewrite ?Hr.
Qed.

(** A library that compares by value selects a row for its own tag. *)
Lemma dt_plain_selects_own_tag (rows : list ReleaseRecord)
    (r : ReleaseRecord) :
  eq_error dt_plain (tag_column rows) (tag_name r) = None /\
  selects dt_plain rows (tag_name r) r = true.
Proof. split; [done|]. apply py_eqb_refl. Qed.

(** X8.  On a populated snapshot the tag "latest" stands for the tag cell of
    the record at index 0.  When the comparison of the table library selects
    that record for its own tag, the lookup gives its [tarball_url] -- no
    record comes before it -- and when that is a string the one request of
    the call goes to it. *)
Theorem downloadRelease_latest_first_tarball (outDir : string) (st : state)
    (r : ReleaseRecord) (rows : list ReleaseRecord) :
  releases (self st) = Frame (r :: rows) ->
  eq_error dt (tag_column (r :: rows)) (tag_name r) = None ->
  selects dt (r :: rows) (tag_name r) r = true ->
  lookup_url dt (tag_name r) st = (inr (tarball_url r), st) /\
  forall u, tarball_url r = JStr u ->
    requests_of
      (trace (snd (downloadRelease net abspath dt outDir "latest" st)))
    = requests_of (trace st) ++ [archive_request u st].
Proof.
  intros Hr He Hsel.
  assert (Hl : lookup_url dt (tag_name r) st = (inr (tarball_url r), st)).
  { apply (lookup_url_first dt (tag_name r) st [] rows r Hr He);
      [constructor|exact Hsel]. }
  split; [done|]. intros u Hu.
  assert (Hres : resolve_release "latest" st = (inr (tag_name r), st)).
  { unfold resolve_release, bindM, get_self. cbn. by rewrite Hr. }
  unfold downloadRelease, bindM. rewrite Hres.
  apply download_resolved_requests. by rewrite <- Hu.
Qed.

(** X9.  [downloadRelease] never touches the instance: the snapshot, the
    other attributes and the header dictionary are what they were.  It sends
    at most one request -- streamed, without query parameters, with the
    headers of the shared dictionary as they are at that moment. *)
Theorem downloadRelease_leaves_instance (outDir tagName : string)
    (st : state) :
  let st' := snd (downloadRelease net abspath dt outDir tagName st) in
  self st' = self st /\ heap st' = heap st /\
  exists new,
    requests_of (trace st') = requests_of (trace st) ++ new /\
    (length new <= 1)%nat /\
    Forall (fun r => req_stream r = true /\ req_params r = ∅ /\
                     req_headers r = default_header st) new.
Proof.
  destruct (downloadRelease_frame net abspath dt outDir tagName st)
    as (Hs & Hh & [Hreq | [u Hreq]]); cbn zeta.
  - split; [done|]. split; [done|]. exists []. rewrite app_nil_r.
    split; [done|]. split; [cbn; lia|constructor].
  - split; [done|]. split; [done|]. exists [archive_request u st].
    split; [done|]. split; [cbn; lia|]. by repeat constructor.
Qed.

End DownloadEnds.

Lemma downloadRelease_unpopulated_witness :
  downloadRelease demo_net same_path dt_plain "out" "v1" demo_client
  = (inl TypeError, demo_client) /\
  downloadRelease demo_net same_path dt_plain "out" "latest" demo_no_release
  = (inl ValueError, demo_no_release) /\
  downloadRelease demo_net same_path dt_plain "out" "v1" demo_no_release
  = (inl KeyError, demo_no_release).
Proof.
  split; [|split].
  - apply (downloadRelease_unpopulated demo_net same_path dt_plain "out" "v1"
             demo_client).
    reflexivity.
  - apply (downloadRelease_unpopulated demo_net same_path dt_plain "out"
             "latest" demo_no_release).
    reflexivity.
  - apply (downloadRelease_unpopulated demo_net same_path dt_plain "out" "v1"
             demo_no_release).
    reflexivity.
Defined.

Lemma downloadRelease_latest_first_tarball_witness :
  lookup_url dt_plain (tag_name demo_row_v2) demo_populated
  = (inr (tarball_url demo_row_v2), demo_populated) /\
  requests_of
    (trace (snd (downloadRelease demo_net same_path dt_plain "out" "latest"
                   demo_populated)))
  = requests_of (trace demo_populated)
    ++ [archive_request "https://api.github.com/tarball/v2" demo_populated].
Proof.
  destruct (downloadRelease_latest_first_tarball demo_net same_path dt_plain
              "out" demo_populated demo_row_v2 [demo_row_v1]) as [Hl Hreq].
  - reflexivity.
  - reflexivity.
  - reflexivity.
  - split; [exact Hl|]. apply Hreq. reflexivity.
Defined.

(* ------------------------------------------------------------------------- *)
(** ** The end of a download                                                 *)
(* ------------------------------------------------------------------------- *)

Section DownloadReturns.
Variable net : nat -> Request -> Outcome.
Variable abspath : string -> string.
Variable dt : datatable.

(** No 'Extracted at' among events that are none. *)
Ltac not_extracted :=
  let Hin := fresh "Hin" in
  intros Hin;
  repeat (apply elem_of_cons in Hin as [Hin|Hin]; [discriminate Hin|]);
  by apply elem_of_nil in Hin.

(** X10.  'Extracted at' is printed exactly when [downloadRelease] returns
    without an exception; and then the call announced the release, sent the
    archive request, got a response without error status whose stream ran to
    its end, and extracted all its members under [abspath(outDir)], in this
    order. *)
Theorem downloadRelease_extracted_iff_returns (outDir tagName : string)
    (st : state) :
  let out := downloadRelease net abspath dt outDir tagName st in
  exists new,
    trace (snd out) = trace st ++ new /\
    (fst out = inr tt <-> EvPrintExtracted (abspath outDir) ∈ new) /\
    (fst out = inr tt ->
     exists release u resp ms,
       net (length (requests_of (trace st))) (archive_request u st)
       = Reply resp /\
       raw resp = GzipTar ms true /\ is_http_error resp = false /\
       new = [EvPrintDownloading release (JStr u);
              EvGet (archive_request u st); EvTarOpen;
              EvExtract (abspath outDir) ms;
              EvPrintExtracted (abspath outDir)]).
Proof.
  cbn zeta. unfold downloadRelease, bindM.
  pose proof (resolve_release_state tagName st) as Hres.
  destruct (resolve_release tagName st) as [[e|release] s]; cbn in Hres;
    subst s.
  { exists []. rewrite app_nil_r. cbn [fst snd].
    split; [done|]. split; [|discriminate].
    split; [discriminate|not_extracted]. }
  pose proof (lookup_url_state dt release st) as Hl.
  destruct (lookup_url dt release st) as [[e|url] s] eqn:Hlook; cbn in Hl;
    subst s.
  { rewrite (download_resolved_lost net abspath dt _ _ _ _ Hlook).
    exists []. rewrite app_nil_r. cbn [fst snd].
    split; [done|]. split; [|discriminate].
    split; [discriminate|not_extracted]. }
  rewrite (download_resolved_found net abspath dt _ _ _ _ Hlook). cbn zeta.
  rewrite (requests_of_logged (EvPrintDownloading release url) st eq_refl).
  destruct url as [| | |u| |];
    try (eexists [_]; cbn [fst snd trace logged];
         split; [done|]; split; [|discriminate];
         split; [discriminate|not_extracted]).
  change (archive_request u (logged (EvPrintDownloading release (JStr u)) st))
    with (archive_request u st).
  destruct (net _ _) as [|resp] eqn:Hnet.
  { eexists [_; _]. cbn [fst snd trace logged sent].
    rewrite <- !app_assoc. split; [done|]. split; [|discriminate].
    split; [discriminate|not_extracted]. }
  destruct (raw resp) as [|ms [|]] eqn:Hraw.
  - eexists [_; _; _]. cbn [fst snd trace logged sent].
    rewrite <- !app_assoc. split; [done|]. split; [|discriminate].
    split; [discriminate|not_extracted].
  - destruct (is_http_error resp) eqn:Herr.
    + eexists [_; _; _; _]. cbn [fst snd trace logged sent].
      rewrite <- !app_assoc. split; [done|]. split; [|discriminate].
      split; [discriminate|not_extracted].
    + eexists [_; _; _; _; _]. cbn [fst snd trace logged sent].
      rewrite <- !app_assoc. split; [done|]. split.
      * split; [intros _|done]. rewrite !elem_of_cons. auto 10.
      * intros _. by exists release, u, resp, ms.
  - eexists [_; _; _; _]. cbn [fst snd trace logged sent].
    rewrite <- !app_assoc. split; [done|]. split; [|discriminate].
    split; [discriminate|not_extracted].
Qed.

End DownloadReturns.

(* ------------------------------------------------------------------------- *)
(** ** The instance over its lifetime                                        *)
(* ------------------------------------------------------------------------- *)

Section Lifetime.
Variable net : nat -> Request -> Outcome.
Variable abspath : string -> string.
Variable dt : datatable.

Lemma same_identity_refl (c : client) : same_identity c c.
Proof. by repeat split. Qed.

Lemma same_identity_trans (c1 c2 c3 : client) :
  same_identity c1 c2 -> same_identity c2 c3 -> same_identity c1 c3.
Proof.
  intros (? & ? & ? & ? & ?) (? & ? & ? & ? & ?).
  repeat split; congruence.
Qed.

Lemma listReleases_same_identity (per_page page : option Z) (st : state) :
  same_identity (self st) (self (snd (listReleases net dt per_page page st))).
Proof.
  destruct (releases_truthy (releases (self st))) eqn:Ht.
  { destruct (listReleases_hit net dt per_page page st Ht) as (rows & _ & ->).
    apply same_identity_refl. }
  rewrite (listReleases_miss net dt _ _ _ Ht). cbn zeta.
  destruct (with_headers_frame per_page page st) as [Hs _].
  assert (Hsent : same_identity (self st)
                    (self (sent (listing_request
                                   (with_headers per_page page st))
                             (with_headers per_page page st)))).
  { cbn. rewrite Hs. apply same_identity_refl. }
  destruct (net _ _) as [|resp]; [done|].
  destruct (is_http_error resp); [done|].
  destruct (body_json resp) as [data|]; [|done].
  destruct (listing_rows data) as [e|[rels n]]; [done|].
  destruct (dt_Frame dt rels) as [e|fr]; [done|].
  match goal with |- context [__print__releases ?s] =>
    destruct (print_releases_frame s) as (-> & _ & _) end.
  cbn. rewrite Hs. by repeat split.
Qed.

Lemma do_call_same_identity (c : call) (st : state) :
  same_identity (self st) (self (snd (do_call net abspath dt c st))).
Proof.
  destruct c as [per_page page|outDir tagName]; cbn [do_call].
  - apply listReleases_same_identity.
  - destruct (downloadRelease_frame net abspath dt outDir tagName st)
      as (-> & _ & _).
    apply same_identity_refl.
Qed.

(** The requests of one call: a listing request to the endpoint of the
    instance, or an archive request. *)
Lemma do_call_requests (c : call) (st : state) :
  exists new,
    requests_of (trace (snd (do_call net abspath dt c st)))
    = requests_of (trace st) ++ new /\
    Forall (fun r => req_params r = ∅ /\
                     (req_stream r = false ->
                      req_url r
                      = default "None" (gh_endpoint_release (self st)))) new.
Proof.
  destruct c as [per_page page|outDir tagName]; cbn [do_call].
  - destruct (releases_truthy (releases (self st))) eqn:Ht.
    + destruct (listReleases_hit net dt per_page page st Ht) as (rows & _ & ->).
      exists []. split; [|constructor]. cbn [snd trace].
      rewrite requests_of_app. cbn. by rewrite !app_nil_r.
    + destruct (listReleases_miss_state net dt per_page page st Ht)
        as (_ & _ & Hreq & _).
      destruct (with_headers_frame per_page page st) as [Hs _].
      eexists. split; [exact Hreq|].
      constructor; [|constructor]. split; [done|]. intros _.
      unfold listing_request. cbn [req_url]. by rewrite Hs.
  - destruct (downloadRelease_frame net abspath dt outDir tagName st)
      as (_ & _ & [Hreq | [u Hreq]]).
    + exists []. rewrite app_nil_r. split; [done|constructor].
    + eexists. split; [exact Hreq|].
      constructor; [|constructor]. split; [done|]. discriminate.
Qed.

(** X11.  Over the whole life of an instance, every request that is not a
    streamed archive request goes to the URL built at construction,
    host/repos/owner/repo/releases; no call changes the attributes that name
    the repository; and no request ever carries query parameters. *)
Theorem listing_requests_go_to_endpoint (owner repo : string)
    (h : gmap loc (gmap string string)) (t : list event) (cs : list call) :
  let st0 := __init__ owner repo h t in
  let st := run_calls net abspath dt cs st0 in
  same_identity (self st0) (self st) /\
  exists new,
    requests_of (trace st) = requests_of t ++ new /\
    Forall (fun r => req_params r = ∅ /\
                     (req_stream r = false ->
                      req_url r = releases_url owner repo)) new.
Proof.
  intros st0 st.
  assert (Hgen : forall cs s,
            gh_endpoint_release (self s) = Some (releases_url owner repo) ->
            same_identity (self s) (self (run_calls net abspath dt cs s)) /\
            exists new,
              requests_of (trace (run_calls net abspath dt cs s))
              = requests_of (trace s) ++ new /\
              Forall (fun r => req_params r = ∅ /\
                               (req_stream r = false ->
                                req_url r = releases_url owner repo)) new).
  { clear. induction cs as [|c cs IH]; intros s Hurl.
    - split; [apply same_identity_refl|]. exists [].
      by rewrite app_nil_r.
    - cbn [run_calls].
      pose proof (do_call_same_identity c s) as Hid.
      destruct (do_call_requests c s) as (new1 & Hr1 & Hall1).
      rewrite Hurl in Hall1. cbn [default] in Hall1.
      destruct (IH (snd (do_call net abspath dt c s))) as (Hid' & new2 & Hr2 & Hall2).
      { destruct Hid as (_ & _ & _ & -> & _). exact Hurl. }
      split; [exact (same_identity_trans _ _ _ Hid Hid')|].
      exists (new1 ++ new2). rewrite Hr2, Hr1, app_assoc.
      split; [done|]. by apply Forall_app. }
  apply (Hgen cs st0). reflexivity.
Qed.

(** [listReleases] writes to one dictionary only: the one of the instance. *)
Lemma do_call_heap_elsewhere (c : call) (st : state) (l : loc) :
  l <> gh_default_header (self st) ->
  heap (snd (do_call net abspath dt c st)) !! l = heap st !! l.
Proof.
  intros Hl. destruct c as [per_page page|outDir tagName]; cbn [do_call].
  - destruct (releases_truthy (releases (self st))) eqn:Ht.
    + by destruct (listReleases_hit net dt per_page page st Ht)
        as (rows & _ & ->).
    + destruct (listReleases_miss_state net dt per_page page st Ht)
        as (-> & _ & _ & _).
      unfold with_headers, dict_set.
      destruct (truthy_int per_page), (truthy_int page);
        cbn [snd heap self]; by rewrite ?lookup_insert_ne.
  - by destruct (downloadRelease_frame net abspath dt outDir tagName st)
      as (_ & -> & _).
Qed.

Lemma run_calls_heap_elsewhere (cs : list call) (st : state) (l : loc) :
  l <> gh_default_header (self st) ->
  heap (run_calls net abspath dt cs st) !! l = heap st !! l.
Proof.
  revert st. induction cs as [|c cs IH]; intros st Hl; [done|].
  cbn [run_calls]. rewrite IH.
  - by apply do_call_heap_elsewhere.
  - destruct (do_call_same_identity c st) as (_ & _ & _ & _ & ->). exact Hl.
Qed.

(** X12.  Each instance has a header dictionary of its own: whatever is
    called on a second instance, the dictionary of the first still holds
    'Accept' alone, and every dictionary that existed before is what it
    was. *)
Theorem instances_do_not_share_headers (owner repo owner' repo' : string)
    (h : gmap loc (gmap string string)) (t : list event) (cs : list call) :
  let first := __init__ owner repo h t in
  let second := __init__ owner' repo' (heap first) (trace first) in
  let st := run_calls net abspath dt cs second in
  gh_default_header (self second) <> gh_default_header (self first) /\
  heap st !! gh_default_header (self first) = Some accept_header /\
  forall l d, h !! l = Some d -> heap st !! l = Some d.
Proof.
  intros first second st.
  set (l1 := fresh (dom h)).
  set (h1 := <[l1 := accept_header]> h).
  set (l2 := fresh (dom h1)).
  assert (Hl1 : gh_default_header (self first) = l1) by done.
  assert (Hl2 : gh_default_header (self second) = l2) by done.
  assert (Hh2 : heap second = <[l2 := accept_header]> h1) by done.
  assert (Hfresh1 : l1 ∉ dom h) by apply is_fresh.
  assert (Hfresh2 : l2 ∉ dom h1) by apply is_fresh.
  assert (Hne : l2 <> l1).
  { intros Heq. apply Hfresh2. rewrite Heq. unfold h1.
    rewrite dom_insert_L. set_solver. }
  rewrite Hl1, Hl2. split; [done|]. clearbody first second.
  split.
  - subst st. rewrite run_calls_heap_elsewhere by (rewrite Hl2; done).
    rewrite Hh2, lookup_insert_ne by done. apply lookup_insert_eq.
  - intros l d Hld.
    assert (Hin : l ∈ dom h) by (apply elem_of_dom; by eexists).
    assert (l <> l1) by (intros ->; done).
    assert (l <> l2).
    { intros ->. apply Hfresh2. unfold h1. rewrite dom_insert_L. set_solver. }
    subst st. rewrite run_calls_heap_elsewhere by (rewrite Hl2; done).
    rewrite Hh2, lookup_insert_ne by done. unfold h1.
    by rewrite lookup_insert_ne.
Qed.

(** X13.  The entries of the header dictionary are never taken out again: a
    fetching call with [per_page] absent or 0 leaves the 'per_page' an
    earlier call wrote, and sends it with its request. *)
Theorem listReleases_sends_stale_per_page (per_page page : option Z)
    (st : state) (v : string) :
  releases_truthy (releases (self st)) = false ->
  default_header st !! "per_page" = Some v ->
  truthy_int per_page = false ->
  exists r,
    requests_of (trace (snd (listReleases net dt per_page page st)))
    = requests_of (trace st) ++ [r] /\
    req_headers r !! "per_page" = Some v /\
    default_header (snd (listReleases net dt per_page page st)) !! "per_page"
    = Some v.
Proof.
  intros Hf Hv Hpp.
  destruct (listReleases_miss_state net dt per_page page st Hf)
    as (Hh & Hl & Hreq & _).
  destruct (with_headers_frame per_page page st) as [Hs _].
  assert (Hw : default_header (with_headers per_page page st) !! "per_page"
               = Some v).
  { unfold with_headers. rewrite Hpp.
    destruct (truthy_int page); [|done].
    rewrite default_header_set by done. by rewrite lookup_insert_ne. }
  eexists. split; [exact Hreq|]. split; [exact Hw|].
  unfold default_header in *. by rewrite Hh, Hl, <- Hs.
Qed.

End Lifetime.

Lemma listReleases_sends_stale_per_page_witness :
  let st := snd (listReleases net_down dt_plain (Some 5) (Some 1) demo_client) in
  exists r,
    requests_of (trace (snd (listReleases net_down dt_plain None (Some 2) st)))
    = requests_of (trace st) ++ [r] /\
    req_headers r !! "per_page" = Some "5" /\
    default_header (snd (listReleases net_down dt_plain None (Some 2) st))
    !! "per_page" = Some "5".
Proof.
  apply (listReleases_sends_stale_per_page net_down dt_plain None (Some 2)
           (snd (listReleases net_down dt_plain (Some 5) (Some 1) demo_client)) "5");
    reflexivity.
Defined.

(* ------------------------------------------------------------------------- *)
(** ** A listing is stored whole or not at all                               *)
(* ------------------------------------------------------------------------- *)

Section AllOrNothing.
Variable net : nat -> Request -> Outcome.
Variable dt : datatable.

Lemma mapM_first_error {A B} (f : A -> result B) (pre post : list A)
    (a : A) (e : exn) :
  Forall (fun x => exists b, f x = inr b) pre -> f a = inl e ->
  mapM f (pre ++ a :: post) = inl e.
Proof.
  intros Hpre Ha. induction Hpre as [|x pre [b Hb] _ IH]; cbn [app mapM].
  - by rewrite Ha.
  - by rewrite Hb, IH.
Qed.

(** X14.  The first object of the response that cannot be converted decides
    the call: its exception comes out ([ValueError] for a timestamp that does
    not parse, [AttributeError] for an element that is no object), and no row
    is stored, those of the objects before it included. *)
Theorem listReleases_first_bad_object (per_page page : option Z)
    (st : state) (resp : Response) (pre post : list json) (d : json)
    (e : exn) :
  releases_truthy (releases (self st)) = false ->
  net (length (requests_of (trace st)))
      (listing_request (with_headers per_page page st)) = Reply resp ->
  is_http_error resp = false ->
  body_json resp = Some (JArr (pre ++ d :: post)) ->
  Forall (fun x => exists r, release_of x = inr r) pre ->
  release_of d = inl e ->
  fst (listReleases net dt per_page page st) = inl e /\
  releases (self (snd (listReleases net dt per_page page st)))
  = releases (self st) /\
  trace (snd (listReleases net dt per_page page st))
  = trace st ++ [EvGet (listing_request (with_headers per_page page st))].
Proof.
  intros Hf Hnet Herr Hbody Hpre Hd.
  rewrite (listReleases_miss net dt _ _ _ Hf). cbn zeta.
  rewrite Hnet, Herr, Hbody. unfold listing_rows. cbn [py_iter].
  rewrite (mapM_first_error release_of pre post d e Hpre Hd).
  destruct (with_headers_frame per_page page st) as [Hs Ht].
  cbn [fst snd sent logged self trace]. by rewrite Hs, Ht.
Qed.

End AllOrNothing.

Lemma listReleases_first_bad_object_witness :
  fst (listReleases net_bad_date dt_plain (Some 30) (Some 1) demo_client)
  = inl ValueError /\
  releases (self (snd (listReleases net_bad_date dt_plain (Some 30) (Some 1)
                         demo_client)))
  = releases (self demo_client) /\
  trace (snd (listReleases net_bad_date dt_plain (Some 30) (Some 1) demo_client))
  = trace demo_client
    ++ [EvGet (listing_request
                 (with_headers (Some 30) (Some 1) demo_client))].
Proof.
  apply (listReleases_first_bad_object net_bad_date dt_plain (Some 30) (Some 1)
           demo_client
           (ok_listing
              (JArr [demo_v2;
                     JObj [("id", JNum 3); ("tag_name", JStr "v1");
                           ("created_at", JStr "2021-09-01")]]))
           [demo_v2] []
           (JObj [("id", JNum 3); ("tag_name", JStr "v1");
                  ("created_at", JStr "2021-09-01")])
           ValueError); try reflexivity.
  repeat constructor. eexists. reflexivity.
Defined.
